(** * The Vue dev-server builder of nx-plus

    A shallow embedding of [libs/vue/src/builders/dev-server/builder.ts]:
    the option resolver ([setup]), the [merge-options] call it relies on,
    the [chainWebpack] wrapper, the rxjs pipeline that turns the
    delegate's promise into the builder's result stream, and the function
    that rewrites the console output ([cyan]).

    JavaScript objects are finite maps from property names to values
    ([gmap string jsval]); a property that is absent reads as [undefined].
    Calls to collaborators that live outside the file (the architect
    context, the helpers of [../../utils], the Vue CLI service) are fields
    of the record [environment].  A promise is taken at the outcome it
    settles with, and the stream [runBuilder] returns is read as its one
    subscriber observes it. *)

From stdpp Require Import base gmap strings list pretty.
From Stdlib Require Import ZArith Ascii Sorted.

#[local] Set Warnings "-register-all".
#[local] Open Scope Z_scope.

(** ** JavaScript values *)

(** [VFun] is a function defined outside the builder (a hook of a
    configuration file, say), named by an identifier.  [VChainWebpack] is
    the arrow function of builder.ts:103-127 together with the variables
    it closes over.  [VError] is an instance of a built-in error class.
    Numbers are the integers JSON options carry. *)
Inductive jsval : Type :=
| VUndef
| VNull
| VBool (b : bool)
| VNum (n : Z)
| VStr (s : string)
| VArr (xs : list jsval)
| VObj (ps : gmap string jsval)
| VFun (name : string)
| VChainWebpack (browserOptions babelConfig options vueConfig : jsval)
| VError (name : string).

Abbreviation obj := (gmap string jsval).

Definition TypeError : jsval := VError "TypeError".

Definition is_undefined (v : jsval) : bool :=
  match v with VUndef => true | _ => false end.

Definition is_nullish (v : jsval) : bool :=
  match v with VUndef | VNull => true | _ => false end.

(** JavaScript's ToBoolean. *)
Definition truthy (v : jsval) : bool :=
  match v with
  | VUndef | VNull => false
  | VBool b => b
  | VNum n => negb (n =? 0)
  | VStr s => negb (String.eqb s "")
  | _ => true
  end.

(** [a || b] *)
Definition js_or (a b : jsval) : jsval := if truthy a then a else b.

(** [is-plain-obj]: what merge-options calls an Option Object. *)
Definition isOptionObject (v : jsval) : bool :=
  match v with VObj _ => true | _ => false end.

Definition is_callable (v : jsval) : bool :=
  match v with VFun _ | VChainWebpack _ _ _ _ => true | _ => false end.

(** [o[key]] for an object [o]. *)
Definition get (o : obj) (key : string) : jsval := default VUndef (o !! key).

(** ** Completions *)

(** The outcome of evaluating an expression: a value, or a thrown
    exception.  An awaited promise is read the same way, its rejection
    being the exception thrown at the [await]. *)
Inductive completion (A : Type) : Type :=
| Normal (a : A)
| Throw (e : jsval).
Arguments Normal {A} a.
Arguments Throw {A} e.

(** [v.key] for an arbitrary value [v]: reading a property of [undefined]
    or [null] throws; the builder reads no property that a primitive, an
    array or a function inherits from its prototype, so such a read
    yields [undefined]. *)
Definition get_prop (v : jsval) (key : string) : completion jsval :=
  match v with
  | VUndef | VNull => Throw TypeError
  | VObj o => Normal (get o key)
  | _ => Normal VUndef
  end.

(** [v?.key] *)
Definition get_optional (v : jsval) (key : string) : jsval :=
  match v with
  | VObj o => get o key
  | _ => VUndef
  end.

(** [Object.keys(v)] *)
Definition Object_keys (v : jsval) : completion (list string) :=
  match v with
  | VUndef | VNull => Throw TypeError
  | VObj o => Normal (map_to_list o).*1
  | VArr xs => Normal (pretty <$> seq 0 (length xs))
  | VStr s => Normal (pretty <$> seq 0 (String.length s))
  | _ => Normal []
  end.

(** ** Size of a value, for induction over nested values *)

Fixpoint jsize (v : jsval) : nat :=
  match v with
  | VArr xs => S (list_sum (jsize <$> xs))
  | VObj ps => S (map_fold (fun _ v' n => jsize v' + n)%nat 0%nat ps)
  | VChainWebpack a b c d => S (jsize a + jsize b + jsize c + jsize d)
  | _ => 1%nat
  end.

(** ** merge-options

    builder.ts:34 requires the npm package [merge-options] and calls it
    with [this = { ignoreUndefined: true }].  The package is a dependency,
    not a file of the repository; what follows is its algorithm
    (index.js: [clone], [mergeKeys], [merge] and the exported function),
    with [concatArrays] at its default [false]. *)
Module MergeOptions.

(** [clone]: arrays and option objects are copied recursively, any other
    value is returned as it is. *)
Fixpoint clone (v : jsval) : jsval :=
  match v with
  | VArr xs => VArr (clone <$> xs)
  | VObj ps => VObj (clone <$> ps)
  | _ => v
  end.

(** One step of [mergeKeys]: what the property [key] of [merged] becomes
    when [source[key]] is [v].  [old] is the property of [merged] before
    the step. *)
Definition mergeKey (ignoreUndefined : bool) (rec : jsval -> jsval -> jsval)
    (v : jsval) (old : option jsval) : option jsval :=
  if ignoreUndefined && is_undefined v then old
  else Some (match old with
             | Some m => rec m v
             | None => clone v
             end).

(** [mergeKeys(merged, source, keys, config)] with [keys] the own
    enumerable keys of [source]: every key of [source] takes its step on
    [merged], the other properties of [merged] stay. *)
Definition mergeKeys (ignoreUndefined : bool) (rec : jsval -> jsval -> jsval)
    (merged source : obj) : obj :=
  base.merge
    (fun (old : option jsval) (step : option (option jsval -> option jsval)) =>
       match step with
       | Some f => f old
       | None => old
       end)
    merged
    (mergeKey ignoreUndefined rec <$> source).

(** [merge(merged, source, config)] *)
Fixpoint merge (ignoreUndefined : bool) (merged source : jsval) {struct source} : jsval :=
  match source, merged with
  | VObj sps, VObj mps => VObj (mergeKeys ignoreUndefined (merge ignoreUndefined) mps sps)
  | _, _ => clone source
  end.

(** The exported function, [mergeOptions.call({ignoreUndefined}, ...options)]. *)
Definition mergeOption (ignoreUndefined : bool) (merged : completion jsval) (option : jsval)
    : completion jsval :=
  match merged with
  | Throw e => Throw e
  | Normal m =>
      if is_undefined option then Normal m
      else if isOptionObject option
           then Normal (merge ignoreUndefined m (VObj {[ "_" := option ]}))
           else Throw TypeError
  end.

Definition mergeOptions (ignoreUndefined : bool) (options : list jsval) : completion jsval :=
  match foldl (mergeOption ignoreUndefined) (Normal (VObj {[ "_" := VObj ∅ ]})) options with
  | Normal merged => get_prop merged "_"
  | Throw e => Throw e
  end.

End MergeOptions.

(** ** Effects

    A computation yields the events it caused, in order, and its
    completion.  [Ev] is the type of events. *)
Definition W (Ev A : Type) : Type := (list Ev * completion A)%type.

#[global] Instance W_ret {Ev} : MRet (W Ev) := fun A a => ([], Normal a).

#[global] Instance W_bind {Ev} : MBind (W Ev) := fun A B f m =>
  match m.2 with
  | Normal a => (m.1 ++ (f a).1, (f a).2)
  | Throw e => (m.1, Throw e)
  end.

Definition emit {Ev} (ev : Ev) : W Ev unit := ([ev], Normal tt).

Definition lift {Ev A} (c : completion A) : W Ev A := ([], c).

(** A promise that has settled. *)
Inductive settled (A : Type) : Type :=
| Resolved (a : A)
| Rejected (e : jsval).
Arguments Resolved {A} a.
Arguments Rejected {A} e.

(** [await p] inside an async function. *)
Definition await {Ev A} (p : settled A) : W Ev A :=
  lift (match p with
        | Resolved a => Normal a
        | Rejected e => Throw e
        end).

(** The promise an async function returns: its events happen, a throw
    becomes the rejection. *)
Definition async {Ev A} (body : W Ev A) : W Ev (settled A) :=
  (body.1, Normal (match body.2 with
                   | Normal a => Resolved a
                   | Throw e => Rejected e
                   end)).

(** ** The collaborators *)

(** What [service.run(name, args, rawArgv)] does: it throws, or returns a
    promise. *)
Definition service : Type :=
  string -> obj -> list string -> completion (settled jsval).

Record environment : Type := {
  (* @angular-devkit/architect *)
  targetFromTargetString : jsval -> completion jsval;
  getTargetOptions : jsval -> settled obj;
  getBuilderNameForTarget : jsval -> settled jsval;
  validateOptions : obj -> jsval -> settled obj;
  workspaceRoot : jsval;
  (* ../../utils *)
  getProjectRoot : settled jsval;
  getBabelConfig : jsval -> completion jsval;
  resolveVueConfig : jsval -> completion jsval;
  resolveConfigureWebpack : jsval -> completion jsval;
  checkUnsupportedConfig : jsval -> completion unit;
  (* @angular-devkit/core, @vue/cli-shared-utils, @vue/cli-service *)
  getSystemPath : jsval -> jsval;
  resolvePkg : jsval -> completion jsval;
  Service : jsval -> jsval -> jsval -> completion service
}.

(** What the builder does to the outside, as far as the claims go. *)
Inductive event : Type :=
| EvValidate (input : obj) (builderName : jsval)
| EvWarn (message : string)
| EvService (path pkg inlineOptions : jsval)
| EvRun (name : string) (args : obj) (rawArgv : list string)
        (result : completion (settled jsval)).

Abbreviation M := (W event).

(** ** The chainWebpack wrapper (builder.ts:103-127) *)

(** The calls the wrapper makes on the webpack chain, in order.  The
    [modify*] functions are those of [../../webpack]; [watchFileSystem]
    stands for the plugin registered under ['vue-cli'] when
    [options.watch] is off; [callHook] is a call of the project
    configuration's own [chainWebpack]. *)
Inductive webpack_step : Type :=
| modifyIndexHtmlPath (browserOptions : jsval)
| modifyEntryPoint (browserOptions : jsval)
| modifyTsConfigPaths (browserOptions : jsval)
| modifyCachePaths
| modifyTypescriptAliases (browserOptions : jsval)
| modifyBabelLoader (babelConfig : jsval)
| watchFileSystem
| callHook (hook : jsval).

Definition chainWebpack (browserOptions babelConfig options vueConfig : jsval)
    : W webpack_step unit :=
  _ ← emit (modifyIndexHtmlPath browserOptions);
  _ ← emit (modifyEntryPoint browserOptions);
  _ ← emit (modifyTsConfigPaths browserOptions);
  _ ← emit modifyCachePaths;
  _ ← emit (modifyTypescriptAliases browserOptions);
  _ ← (if truthy babelConfig then emit (modifyBabelLoader babelConfig) else mret tt);
  watch ← lift (get_prop options "watch");
  _ ← (if truthy watch then mret tt else emit watchFileSystem);
  hook ← lift (get_prop vueConfig "chainWebpack");
  if truthy hook
  then if is_callable hook then emit (callHook hook) else lift (Throw TypeError)
  else mret tt.

(** Calling a function value on the webpack chain. *)
Definition call (f : jsval) : W webpack_step unit :=
  match f with
  | VChainWebpack browserOptions babelConfig options vueConfig =>
      chainWebpack browserOptions babelConfig options vueConfig
  | VFun _ => emit (callHook f)
  | _ => lift (Throw TypeError)
  end.

(** ** The option resolver (builder.ts:36-42, 63-148) *)

Definition devServerBuilderOverriddenKeys : list string :=
  ["mode"; "skipPlugins"; "publicPath"; "css"; "stdin"].

(** [{ ...a, ...b }] *)
Definition spread (a b : obj) : obj := b ∪ a.

(** [o[key] = value], in strict mode.  Own properties added to an array
    or a function are not represented. *)
Definition set_prop (o : jsval) (key : string) (value : jsval) : completion jsval :=
  match o with
  | VObj ps => Normal (VObj (<[key := value]> ps))
  | VArr _ | VFun _ | VChainWebpack _ _ _ _ | VError _ => Normal o
  | _ => Throw TypeError
  end.

Definition overrides (options : obj) : obj :=
  foldl (fun previous key => spread previous {[ key := get options key ]}) ∅
    (filter (fun key => is_undefined (get options key) = false
                        /\ key ∈ devServerBuilderOverriddenKeys)
            (map_to_list options).*1).

Definition defaults : obj :=
  {[ "publicPath" := VStr "/";
     "transpileDependencies" := VArr [];
     "css" := VObj {[ "requireModuleExtension" := VBool true;
                      "extract" := VBool false;
                      "sourceMap" := VBool false;
                      "loaderOptions" := VObj ∅ ]};
     "devServer" := VObj ∅ ]}.

(** The third argument of the [mergeOptions] call. *)
Definition explicitOptions (options browserOptions : obj) (babelConfig vueConfig : jsval) : obj :=
  {[ "chainWebpack" :=
       VChainWebpack (VObj browserOptions) babelConfig (VObj options) vueConfig;
     "publicPath" := get browserOptions "publicPath";
     "filenameHashing" := get browserOptions "filenameHashing";
     "css" := get browserOptions "css";
     "devServer" := get options "devServer";
     "transpileDependencies" := get options "transpileDependencies" ]}.

(** The double quote character. *)
Definition dq : string :=
  String (Ascii.Ascii false true false false false true false false) EmptyString.

Definition deprecation : string :=
  dq +:+ "configure-webpack.js" +:+ dq
  +:+ " has been deprecated. Please move this function to the "
  +:+ dq +:+ "vue-nx.config.js" +:+ dq +:+ " file.".

Definition setup (E : environment) (options : obj) : M (jsval * obj * jsval) :=
  browserTarget ← lift (targetFromTargetString E (get options "browserTarget"));
  rawBrowserOptions ← await (getTargetOptions E browserTarget);
  let overrides := overrides options in
  browserName ← await (getBuilderNameForTarget E browserTarget);
  _ ← emit (EvValidate (spread rawBrowserOptions overrides) browserName);
  browserOptions ← await (validateOptions E (spread rawBrowserOptions overrides) browserName);
  projectRoot ← await (getProjectRoot E);
  babelConfig ← lift (getBabelConfig E projectRoot);
  vueConfig ← lift (resolveVueConfig E projectRoot);
  let vueConfig := js_or vueConfig (VObj ∅) in
  inlineOptions ← lift (MergeOptions.mergeOptions true
                          [VObj defaults; vueConfig;
                           VObj (explicitOptions options browserOptions babelConfig vueConfig)]);
  configureWebpack ← lift (resolveConfigureWebpack E projectRoot);
  inlineOptions ←
    (if truthy configureWebpack
     then _ ← emit (EvWarn deprecation);
          lift (set_prop inlineOptions "configureWebpack" configureWebpack)
     else mret inlineOptions);
  mret (projectRoot, browserOptions, inlineOptions).

(** ** rxjs, as far as the builder uses it

    A stream is what its one subscriber observes: the values delivered
    with [next], and how the stream stands after them.  [Open] is a
    stream that has not been closed by [complete] or [error]. *)
Module Rx.

Inductive ending : Type :=
| Open
| Completed
| Errored (e : jsval).

Record stream (A : Type) : Type := Stream {
  emitted : list A;
  ending_of : ending
}.
Arguments Stream {A} emitted ending_of.
Arguments emitted {A} s.
Arguments ending_of {A} s.

(** [from(promise)] *)
Definition from {A} (p : settled A) : stream A :=
  match p with
  | Resolved a => Stream [a] Completed
  | Rejected e => Stream [] (Errored e)
  end.

(** The calls a subscribe function makes on its observer. *)
Inductive observer_call (A : Type) : Type :=
| next (a : A)
| error (e : jsval)
| complete.
Arguments next {A} a.
Arguments error {A} e.
Arguments complete {A}.

(** What the subscriber sees of these calls: nothing gets through after
    [error] or [complete]. *)
Fixpoint deliver {A} (calls : list (observer_call A)) : stream A :=
  match calls with
  | [] => Stream [] Open
  | next a :: rest => let s := deliver rest in Stream (a :: emitted s) (ending_of s)
  | error e :: _ => Stream [] (Errored e)
  | complete :: _ => Stream [] Completed
  end.

(** [new Observable(subscribe)]: an exception thrown by [subscribe] is
    sent to the observer as an error. *)
Definition Observable {Ev A} (subscribe : W Ev (list (observer_call A))) : W Ev (stream A) :=
  (subscribe.1, Normal (match subscribe.2 with
                        | Normal calls => deliver calls
                        | Throw e => Stream [] (Errored e)
                        end)).

(** [switchMap(project)].  Each outer value replaces the inner stream;
    an inner stream has delivered what it holds before the next outer
    value arrives.  [current] is how the inner stream in place stands;
    the result completes when the outer stream and the last inner
    stream have both completed. *)
Fixpoint switchMap_from {Ev A B} (project : A -> W Ev (stream B))
    (values : list A) (outer current : ending) : W Ev (stream B) :=
  match values with
  | [] => mret (Stream [] (match outer with
                           | Completed => current
                           | _ => outer
                           end))
  | a :: rest =>
      let inner := project a in
      match inner.2 with
      | Throw e => (inner.1, Normal (Stream [] (Errored e)))
      | Normal s =>
          match ending_of s with
          | Errored e => (inner.1, Normal s)
          | current' =>
              let later := switchMap_from project rest outer current' in
              (inner.1 ++ later.1,
               match later.2 with
               | Normal s' => Normal (Stream (emitted s ++ emitted s') (ending_of s'))
               | Throw e => Throw e
               end)
          end
      end
  end.

Definition switchMap {Ev A B} (project : A -> W Ev (stream B)) (source : stream A)
    : W Ev (stream B) :=
  switchMap_from project (emitted source) (ending_of source) Completed.

(** [map(project)]: an exception thrown by [project] is sent on as an
    error and ends the stream. *)
Fixpoint map_from {A B} (project : A -> completion B) (values : list A) (last : ending)
    : stream B :=
  match values with
  | [] => Stream [] last
  | a :: rest =>
      match project a with
      | Throw e => Stream [] (Errored e)
      | Normal b => let s := map_from project rest last in
                    Stream (b :: emitted s) (ending_of s)
      end
  end.

Definition map {A B} (project : A -> completion B) (source : stream A) : stream B :=
  map_from project (emitted source) (ending_of source).

End Rx.

(** ** runBuilder (builder.ts:44-197) *)

(** builder.ts:53-60.  The assignment [options.css = undefined] changes
    the caller's object; the options returned are the ones every later
    read sees. *)
Definition normalizeCss (options : obj) : M obj :=
  let css := get options "css" in
  requireModuleExtension ← lift (get_prop css "requireModuleExtension");
  if is_undefined requireModuleExtension then
    extract ← lift (get_prop css "extract");
    if is_undefined extract then
      sourceMap ← lift (get_prop css "sourceMap");
      if is_undefined sourceMap then
        loaderOptions ← lift (get_prop css "loaderOptions");
        keys ← lift (Object_keys loaderOptions);
        if bool_decide (length keys = 0%nat)
        then mret (<["css" := VUndef]> options)
        else mret options
      else mret options
    else mret options
  else mret options.

(** [explicit || inlineOptions.devServer?.key] *)
Definition orDevServer (explicit inlineOptions : jsval) (key : string) : M jsval :=
  if truthy explicit then mret explicit
  else devServer ← lift (get_prop inlineOptions "devServer");
       mret (get_optional devServer key).

(** The object literal of builder.ts:178-188, its five [||] expressions
    evaluated. *)
Definition serveObject (options browserOptions : obj) (open host port https public : jsval)
    : obj :=
  {[ "open" := open;
     "copy" := get options "copy";
     "stdin" := get options "stdin";
     "mode" := get browserOptions "mode";
     "host" := host;
     "port" := port;
     "https" := https;
     "public" := public;
     "skip-plugins" := get browserOptions "skipPlugins" ]}.

(** The second argument of [service.run] (builder.ts:178-188). *)
Definition serveArgs (options browserOptions : obj) (inlineOptions : jsval) : M obj :=
  open ← orDevServer (get options "open") inlineOptions "open";
  host ← orDevServer (get options "host") inlineOptions "host";
  port ← orDevServer (get options "port") inlineOptions "port";
  https ← orDevServer (get options "https") inlineOptions "https";
  public ← orDevServer (get options "public") inlineOptions "public";
  mret (serveObject options browserOptions open host port https public).

(** The subscribe function of builder.ts:174-193:
    [service.run(...).then(success => obs.next(success)).catch(err => obs.error(err))]. *)
Definition subscribe (run : service) (options browserOptions : obj) (inlineOptions : jsval)
    : M (list (Rx.observer_call jsval)) :=
  args ← serveArgs options browserOptions inlineOptions;
  let result := run "serve" args ["serve"] in
  _ ← emit (EvRun "serve" args ["serve"] result);
  promise ← lift result;
  mret (match promise with
        | Resolved success => [Rx.next success]
        | Rejected err => [Rx.error err]
        end).

(** The function given to [switchMap] (builder.ts:166-194). *)
Definition serve (E : environment) (options : obj) (resolved : jsval * obj * jsval)
    : M (Rx.stream jsval) :=
  let '(projectRoot, browserOptions, inlineOptions) := resolved in
  _ ← lift (checkUnsupportedConfig E projectRoot);
  pkg ← lift (resolvePkg E (workspaceRoot E));
  _ ← emit (EvService (getSystemPath E projectRoot) pkg inlineOptions);
  service ← lift (Service E (getSystemPath E projectRoot) pkg inlineOptions);
  Rx.Observable (subscribe service options browserOptions inlineOptions).

(** The function given to [map] (builder.ts:195). *)
Definition toBuilderOutput (result : jsval) : completion jsval :=
  match get_prop result "url" with
  | Normal url => Normal (VObj {[ "success" := VBool true; "baseUrl" := url ]})
  | Throw e => Throw e
  end.

(** [runBuilder(options, context)].  A [Throw] is an exception thrown by
    the call itself; otherwise the stream is the one returned, as its
    subscriber observes it.  The call of [modifyChalkOutput]
    (builder.ts:155), a helper of [../../utils] that installs the function
    [cyan] on the console output, is taken to return: it has no part in
    the stream, and what is stated of [runBuilder] is stated of
    invocations that get past it. *)
Definition runBuilder (E : environment) (options : obj) : M (Rx.stream jsval) :=
  options ← normalizeCss options;
  resolved ← async (setup E options);
  results ← Rx.switchMap (serve E options) (Rx.from resolved);
  mret (Rx.map toBuilderOutput results).

(** What the subscriber of [new Observable] sees of one call of
    [service.run]. *)
Definition observed (result : completion (settled jsval)) : Rx.stream jsval :=
  match result with
  | Normal (Resolved success) => Rx.Stream [success] Rx.Open
  | Normal (Rejected err) => Rx.Stream [] (Rx.Errored err)
  | Throw e => Rx.Stream [] (Rx.Errored e)
  end.

(** ** Reading the events *)

Definition warnings (trace : list event) : list string :=
  omap (fun ev => match ev with EvWarn message => Some message | _ => None end) trace.




(** What a run of [setup] resolved to. *)
Definition browserOptions_of (resolved : M (jsval * obj * jsval)) : obj :=
  match resolved.2 with
  | Normal (_, browserOptions, _) => browserOptions
  | Throw _ => ∅
  end.

Definition inlineOptions_of (resolved : M (jsval * obj * jsval)) : jsval :=
  match resolved.2 with
  | Normal (_, _, inlineOptions) => inlineOptions
  | Throw _ => VUndef
  end.

(** ** Precedence of the merged layers *)

(** What a key holds once [value] has been merged over [lower] with
    [ignoreUndefined] on. *)
Definition over (lower value : jsval) : jsval :=
  if is_undefined value then lower else MergeOptions.merge true lower value.

(** The value of the highest layer that defines the key. *)
Definition precedence (default config explicit : jsval) : jsval :=
  if is_undefined explicit
  then (if is_undefined config then default else config)
  else explicit.

(** ** A sample project *)

Definition sampleService : service := fun _ _ _ =>
  Normal (Resolved (VObj {[ "url" := VStr "http://localhost:8080/" ]})).


(** The project configuration of the sample project: a [chainWebpack]
    hook and a dev-server port, no css. *)
Definition sampleConfig : obj :=
  {[ "chainWebpack" := VFun "vue-nx.config.js:chainWebpack";
     "devServer" := VObj {[ "port" := VNum 4000 ]} ]}.

Definition sampleEnvironment (config : obj) (run : service) (legacyHook : jsval)
    : environment := {|
  targetFromTargetString := fun target => Normal target;
  getTargetOptions := fun _ =>
    Resolved {[ "mode" := VStr "development"; "dest" := VStr "dist/apps/demo" ]};
  getBuilderNameForTarget := fun _ => Resolved (VStr "@nx-plus/vue:browser");
  validateOptions := fun input _ => Resolved input;
  workspaceRoot := VStr "/workspace";
  getProjectRoot := Resolved (VStr "apps/demo");
  getBabelConfig := fun _ => Normal VUndef;
  resolveVueConfig := fun _ => Normal (VObj config);
  resolveConfigureWebpack := fun _ => Normal legacyHook;
  checkUnsupportedConfig := fun _ => Normal tt;
  getSystemPath := fun path => path;
  resolvePkg := fun _ => Normal (VObj ∅);
  Service := fun _ _ _ => Normal run
|}.

Definition sampleOptions : obj :=
  {[ "browserTarget" := VStr "demo:build";
     "css" := VObj {[ "extract" := VBool true ]};
     "mode" := VStr "production";
     "port" := VNum 0;
     "watch" := VBool true ]}.

Definition sampleProject : environment :=
  sampleEnvironment sampleConfig sampleService VUndef.

(** A project whose configuration file sets one css sub-option. *)
Definition cssConfig : obj := {[ "css" := VObj {[ "extract" := VBool true ]} ]}.

Definition cssProject : environment := sampleEnvironment cssConfig sampleService VUndef.

Definition sampleOutput : jsval :=
  VObj {[ "success" := VBool true; "baseUrl" := VStr "http://localhost:8080/" ]}.

(** What [validateOptions] receives for [plainOptions]: the raw options
    of the browser target. *)
Definition plainValidation : event :=
  EvValidate {[ "mode" := VStr "development"; "dest" := VStr "dist/apps/demo" ]}
             (VStr "@nx-plus/vue:browser").

Definition legacyProject : environment :=
  sampleEnvironment sampleConfig sampleService (VFun "configure-webpack.js").

(** The css option the sample projects end with: [extract] laid over the
    defaults. *)
Definition sampleCss : jsval :=
  VObj {[ "requireModuleExtension" := VBool true;
          "extract" := VBool true;
          "sourceMap" := VBool false;
          "loaderOptions" := VObj ∅ ]}.


(** What [service.run] receives in the sample project: the port is
    the project configuration's, the explicit [0] being falsy. *)
Definition sampleArgs : obj :=
  {[ "open" := VUndef;
     "copy" := VUndef;
     "stdin" := VUndef;
     "mode" := VStr "production";
     "host" := VUndef;
     "port" := VNum 4000;
     "https" := VUndef;
     "public" := VUndef;
     "skip-plugins" := VUndef ]}.

(** What [validateOptions] receives in the sample project. *)
Definition sampleInput : obj :=
  {[ "css" := VObj {[ "extract" := VBool true ]};
     "mode" := VStr "production";
     "dest" := VStr "dist/apps/demo" ]}.

Definition sampleValidation : event :=
  EvValidate sampleInput (VStr "@nx-plus/vue:browser").

Definition sampleCall (run : service) : event :=
  EvRun "serve" sampleArgs ["serve"] (run "serve" sampleArgs ["serve"]).

(** The options a schema with no [css] default leaves: every sub-option
    unset. *)
Definition plainOptions : obj :=
  {[ "browserTarget" := VStr "demo:build";
     "css" := VObj {[ "loaderOptions" := VObj ∅ ]};
     "host" := VStr "0.0.0.0" ]}.

(** ** The console output (builder.ts:154-163)

    [runBuilder] hands [modifyChalkOutput] a function that rewrites what
    is printed in cyan.  The function takes no part in the stream
    [runBuilder] returns and is embedded on its own.  Strings are taken
    byte by byte; the pattern is ASCII, so it matches a UTF-8 text where
    it matches the text itself. *)

(** [s.startsWith(p)], with what follows [p]. *)
Fixpoint strip_prefix (p s : string) : option string :=
  match p, s with
  | EmptyString, _ => Some s
  | String a p', String b s' => if decide (a = b) then strip_prefix p' s' else None
  | String _ _, EmptyString => None
  end.

(** What the group [([p]?npm run|yarn)] can match, in the order in which
    the matcher tries: the optional [p] first taken, then left out, then
    the second alternative. *)
Definition buildCommands : list string := ["pnpm run"; "npm run"; "yarn"].

(** A match of [/([p]?npm run|yarn) build/] at the start of [s]: the
    group, and what follows the match. *)
Fixpoint matchFirst (alternatives : list string) (s : string) : option (string * string) :=
  match alternatives with
  | [] => None
  | c :: rest =>
      match strip_prefix (c +:+ " build") s with
      | Some after => Some (c, after)
      | None => matchFirst rest s
      end
  end.

(** [buildRegex.exec(s)]: the first position with a match, as what
    precedes the match, the group, and what follows the match. *)
Fixpoint buildRegex_exec (s : string) : option (string * string * string) :=
  match matchFirst buildCommands s with
  | Some (group, after) => Some (EmptyString, group, after)
  | None =>
      match s with
      | EmptyString => None
      | String c s' =>
          match buildRegex_exec s' with
          | Some (before, group, after) => Some (String c before, group, after)
          | None => None
          end
      end
  end.

(** GetSubstitution of ECMAScript for a pattern with one group and no
    named groups: how [String.prototype.replace] reads the replacement
    text. *)
Fixpoint getSubstitution (matched before after group : string) (template : string) : string :=
  match template with
  | EmptyString => EmptyString
  | String "$" rest =>
      match rest with
      | String "$" r => String "$" (getSubstitution matched before after group r)
      | String "&" r => matched +:+ getSubstitution matched before after group r
      | String "`" r => before +:+ getSubstitution matched before after group r
      | String "'" r => after +:+ getSubstitution matched before after group r
      | String "0" (String "1" r) => group +:+ getSubstitution matched before after group r
      | String "1" r => group +:+ getSubstitution matched before after group r
      | _ => String "$" (getSubstitution matched before after group rest)
      end
  | String c rest => String c (getSubstitution matched before after group rest)
  end.

(** The function given to [modifyChalkOutput('cyan', ...)], [project]
    being [context.target.project]. *)
Definition cyan (project arg : string) : string :=
  match buildRegex_exec arg with
  | Some (before, group, after) =>
      before +:+ getSubstitution (group +:+ " build") before after group
                   ("nx build " +:+ project +:+ " --prod") +:+ after
  | None => arg
  end.

(** ** The order of events *)

(** The place of an event in an invocation. *)
Definition phase (ev : event) : nat :=
  match ev with
  | EvValidate _ _ => 0
  | EvWarn _ => 1
  | EvService _ _ _ => 2
  | EvRun _ _ _ _ => 3
  end.

(** ** Projects that fail *)

(** The sample project with four of its collaborators given: what
    validation answers, what the project configuration file exports, what
    [checkUnsupportedConfig] does, and what constructing the service
    does. *)
Definition projectWith (validated : obj -> settled obj) (vueConfig : jsval)
    (check : completion unit) (constructed : completion service) : environment := {|
  targetFromTargetString := targetFromTargetString sampleProject;
  getTargetOptions := getTargetOptions sampleProject;
  getBuilderNameForTarget := getBuilderNameForTarget sampleProject;
  validateOptions := fun input _ => validated input;
  workspaceRoot := workspaceRoot sampleProject;
  getProjectRoot := getProjectRoot sampleProject;
  getBabelConfig := getBabelConfig sampleProject;
  resolveVueConfig := fun _ => Normal vueConfig;
  resolveConfigureWebpack := resolveConfigureWebpack sampleProject;
  checkUnsupportedConfig := fun _ => check;
  getSystemPath := getSystemPath sampleProject;
  resolvePkg := resolvePkg sampleProject;
  Service := fun _ _ _ => constructed
|}.

(** The browser target's options do not validate. *)
Definition invalidProject : environment :=
  projectWith (fun _ => Rejected (VError "SchemaValidationException")) (VObj sampleConfig)
    (Normal tt) (Normal sampleService).

(** The project configuration file exports a function. *)
Definition functionConfigProject : environment :=
  projectWith Resolved (VFun "vue-nx.config.js") (Normal tt) (Normal sampleService).

(** [checkUnsupportedConfig] turns the project down. *)
Definition unsupportedProject : environment :=
  projectWith Resolved (VObj sampleConfig) (Throw (VError "Error")) (Normal sampleService).

(** A service whose [run] resolves with nothing. *)
Definition voidService : service := fun _ _ _ => Normal (Resolved VUndef).

Definition voidProject : environment := sampleEnvironment sampleConfig voidService VUndef.

(** A project configuration whose [chainWebpack] is not a function. *)
Definition flagConfig : obj := {[ "chainWebpack" := VBool true ]}.

(** The legacy project, its browser target's options not validating. *)
Definition invalidLegacyProject : environment := {|
  targetFromTargetString := targetFromTargetString legacyProject;
  getTargetOptions := getTargetOptions legacyProject;
  getBuilderNameForTarget := getBuilderNameForTarget legacyProject;
  validateOptions := fun _ _ => Rejected (VError "SchemaValidationException");
  workspaceRoot := workspaceRoot legacyProject;
  getProjectRoot := getProjectRoot legacyProject;
  getBabelConfig := getBabelConfig legacyProject;
  resolveVueConfig := resolveVueConfig legacyProject;
  resolveConfigureWebpack := resolveConfigureWebpack legacyProject;
  checkUnsupportedConfig := checkUnsupportedConfig legacyProject;
  getSystemPath := getSystemPath legacyProject;
  resolvePkg := resolvePkg legacyProject;
  Service := Service legacyProject
|}.

(** ** Induction over values *)

Lemma jsize_lookup (ps : obj) (k : string) (v : jsval) :
  ps !! k = Some v -> (jsize v < jsize (VObj ps))%nat.
Proof.
  intros Hk. simpl.
  rewrite (map_fold_delete_L _ _ k v ps); [lia | | done].
  intros; lia.
Qed.

Lemma jsize_elem (xs : list jsval) (v : jsval) :
  v ∈ xs -> (jsize v < jsize (VArr xs))%nat.
Proof.
  induction 1 as [x l|x y l _ IH]; cbn [jsize] in *; rewrite fmap_cons; simpl; lia.
Qed.

Lemma jsval_nested_ind (P : jsval -> Prop) :
  (forall v, (forall w, (jsize w < jsize v)%nat -> P w) -> P v) ->
  forall v, P v.
Proof.
  intros step v. remember (jsize v) as n eqn:Hn.
  revert v Hn. induction (lt_wf n) as [n _ IH].
  intros v ->. apply step. intros w Hw. exact (IH _ Hw w eq_refl).
Qed.

Lemma clone_id (v : jsval) : MergeOptions.clone v = v.
Proof.
  induction v as [v IH] using jsval_nested_ind.
  destruct v as [| | | | |xs|ps| | |]; simpl; try reflexivity.
  - f_equal. rewrite <- (list_fmap_id xs) at 2.
    apply list_fmap_ext. intros i x Hx. apply IH, jsize_elem.
    by eapply list_elem_of_lookup_2.
  - f_equal. apply map_eq. intros k. rewrite lookup_fmap.
    destruct (ps !! k) as [x|] eqn:Hk; simpl; [|done].
    f_equal. by eapply IH, jsize_lookup.
Qed.

(** ** Laws of the effect monad *)

Section effects.
Context {Ev : Type}.

Lemma bind_ret {A B} (a : A) (f : A -> W Ev B) : (mret a ≫= f) = f a.
Proof. unfold mbind, W_bind, mret, W_ret. simpl. by destruct (f a). Qed.

Lemma bind_nil {A B} (a : A) (f : A -> W Ev B) : ((([], Normal a) : W Ev A) ≫= f) = f a.
Proof. apply bind_ret. Qed.

Lemma bind_lift_Normal {A B} (a : A) (f : A -> W Ev B) : (lift (Normal a) ≫= f) = f a.
Proof. apply bind_ret. Qed.

Lemma bind_lift_Throw {A B} (e : jsval) (f : A -> W Ev B) :
  (lift (Throw e) ≫= f) = ([], Throw e).
Proof. reflexivity. Qed.

Lemma bind_emit {B} (ev : Ev) (f : unit -> W Ev B) :
  (emit ev ≫= f) = (ev :: (f tt).1, (f tt).2).
Proof. reflexivity. Qed.

Lemma bind_pair {A B} (trace : list Ev) (c : completion A) (f : A -> W Ev B) :
  ((trace, c) ≫= f) =
  match c with
  | Normal a => (trace ++ (f a).1, (f a).2)
  | Throw e => (trace, Throw e)
  end.
Proof. reflexivity. Qed.

Lemma await_Resolved {A} (a : A) : await (Ev := Ev) (Resolved a) = lift (Normal a).
Proof. reflexivity. Qed.

Lemma await_Rejected {A} (e : jsval) : await (Ev := Ev) (A := A) (Rejected e) = lift (Throw e).
Proof. reflexivity. Qed.

End effects.

Create Rewrite HintDb effects.
#[local] Hint Rewrite @bind_ret @bind_lift_Normal @bind_lift_Throw @bind_emit
  @await_Resolved @await_Rejected : effects.

(** Runs a straight-line computation: every call whose outcome is not
    known yet is split into its outcomes. *)
Ltac step_effects :=
  repeat first
    [ progress autorewrite with effects in *
    | match goal with
      | H : context [lift ?c ≫= _] |- _ => destruct c eqn:?
      | H : context [await ?p ≫= _] |- _ => destruct p eqn:?
      | |- context [lift ?c ≫= _] => destruct c eqn:?
      | |- context [await ?p ≫= _] => destruct p eqn:?
      end ].

(** ** What merge-options computes *)

Lemma merge_obj (iu : bool) (merged source : obj) :
  MergeOptions.merge iu (VObj merged) (VObj source)
  = VObj (MergeOptions.mergeKeys iu (MergeOptions.merge iu) merged source).
Proof. reflexivity. Qed.

Lemma merge_replace (iu : bool) (merged source : jsval) :
  isOptionObject source && isOptionObject merged = false ->
  MergeOptions.merge iu merged source = source.
Proof.
  intros H. rewrite <- (clone_id source) at 2.
  destruct source, merged; try reflexivity; discriminate H.
Qed.

Lemma lookup_mergeKeys (iu : bool) (rec : jsval -> jsval -> jsval) (merged source : obj)
    (key : string) :
  MergeOptions.mergeKeys iu rec merged source !! key
  = match source !! key with
    | Some v => MergeOptions.mergeKey iu rec v (merged !! key)
    | None => merged !! key
    end.
Proof.
  unfold MergeOptions.mergeKeys. rewrite lookup_merge, lookup_fmap.
  destruct (source !! key), (merged !! key); reflexivity.
Qed.

(** Read with [get], a merged key is the source's value laid over the
    old one. *)
Lemma get_mergeKeys (merged source : obj) (key : string) :
  get (MergeOptions.mergeKeys true (MergeOptions.merge true) merged source) key
  = over (get merged key) (get source key).
Proof.
  unfold get, over. rewrite lookup_mergeKeys.
  destruct (source !! key) as [v|]; simpl; [|reflexivity].
  unfold MergeOptions.mergeKey. simpl.
  destruct (is_undefined v) eqn:Hv; [reflexivity|].
  destruct (merged !! key) as [m|]; simpl; [reflexivity|].
  rewrite clone_id. symmetry. by apply merge_replace, andb_false_r.
Qed.

Lemma merge_underscore (iu : bool) (merged option : jsval) :
  is_undefined option = false ->
  MergeOptions.merge iu (VObj {[ "_" := merged ]}) (VObj {[ "_" := option ]})
  = VObj {[ "_" := MergeOptions.merge iu merged option ]}.
Proof.
  intros Hdef. rewrite merge_obj. f_equal. apply map_eq. intros key.
  rewrite lookup_mergeKeys.
  destruct (decide (key = "_")) as [->|Hne].
  - rewrite !lookup_singleton_eq. unfold MergeOptions.mergeKey.
    by rewrite Hdef, andb_false_r.
  - by rewrite !lookup_singleton_ne.
Qed.

(** The call of builder.ts:98-134 on three option objects. *)
Lemma mergeOptions_layers (iu : bool) (d c e : obj) :
  MergeOptions.mergeOptions iu [VObj d; VObj c; VObj e]
  = Normal (MergeOptions.merge iu
              (MergeOptions.merge iu (MergeOptions.merge iu (VObj ∅) (VObj d)) (VObj c))
              (VObj e)).
Proof.
  unfold MergeOptions.mergeOptions, MergeOptions.mergeOption.
  cbn [foldl is_undefined isOptionObject].
  rewrite !merge_underscore by reflexivity.
  unfold get_prop, get. by rewrite lookup_singleton_eq.
Qed.

(** The project configuration has to be an option object. *)
Lemma mergeOptions_config (d e : obj) (config merged : jsval) :
  MergeOptions.mergeOptions true [VObj d; config; VObj e] = Normal merged ->
  truthy config = true ->
  exists c, config = VObj c.
Proof.
  unfold MergeOptions.mergeOptions, MergeOptions.mergeOption.
  cbn [foldl is_undefined isOptionObject].
  destruct config; try discriminate; eauto.
Qed.

(** ** The shape of a run of [setup] *)

(** A successful [setup]: every collaborator answered, the three layers
    merged, and the legacy hook, if there is one, was added last. *)
Lemma setup_Normal (E : environment) (options : obj) (trace : list event)
    (projectRoot : jsval) (browserOptions : obj) (inlineOptions : jsval) :
  setup E options = (trace, Normal (projectRoot, browserOptions, inlineOptions)) ->
  exists target raw name babelConfig vueConfig merged configureWebpack,
    targetFromTargetString E (get options "browserTarget") = Normal target
    /\ getTargetOptions E target = Resolved raw
    /\ getBuilderNameForTarget E target = Resolved name
    /\ validateOptions E (spread raw (overrides options)) name = Resolved browserOptions
    /\ getProjectRoot E = Resolved projectRoot
    /\ getBabelConfig E projectRoot = Normal babelConfig
    /\ resolveVueConfig E projectRoot = Normal vueConfig
    /\ MergeOptions.mergeOptions true
         [VObj defaults; js_or vueConfig (VObj ∅);
          VObj (explicitOptions options browserOptions babelConfig (js_or vueConfig (VObj ∅)))]
       = Normal merged
    /\ resolveConfigureWebpack E projectRoot = Normal configureWebpack
    /\ (if truthy configureWebpack
        then set_prop merged "configureWebpack" configureWebpack = Normal inlineOptions
             /\ trace = [EvValidate (spread raw (overrides options)) name; EvWarn deprecation]
        else inlineOptions = merged
             /\ trace = [EvValidate (spread raw (overrides options)) name]).
Proof.
  unfold setup. intros H. step_effects; try discriminate H.
  match goal with
  | _ : resolveConfigureWebpack _ _ = Normal ?cw |- _ => destruct (truthy cw) eqn:Hcw
  end; step_effects; try discriminate H.
  - destruct (set_prop _ _ _) eqn:Hset in H; cbn in H; simplify_eq.
    do 7 eexists. repeat split; try eassumption. by rewrite Hcw.
  - cbn in H. simplify_eq.
    do 7 eexists. repeat split; try eassumption. by rewrite Hcw.
Qed.

(** Whatever [setup] comes to, it has asked for at most one validation
    and given at most one warning, in this order. *)
Lemma setup_trace (E : environment) (options : obj) :
  (setup E options).1 = []
  \/ exists target raw name,
       targetFromTargetString E (get options "browserTarget") = Normal target
       /\ getTargetOptions E target = Resolved raw
       /\ getBuilderNameForTarget E target = Resolved name
       /\ ((setup E options).1 = [EvValidate (spread raw (overrides options)) name]
           \/ (setup E options).1
              = [EvValidate (spread raw (overrides options)) name; EvWarn deprecation]).
Proof.
  unfold setup. step_effects; auto.
  all: right; do 3 eexists; split_and!; [reflexivity|eassumption|eassumption|].
  all: try (left; reflexivity).
  match goal with
  | _ : resolveConfigureWebpack _ _ = Normal ?cw |- _ => destruct (truthy cw)
  end; step_effects.
  - right. by destruct (set_prop _ _ _).
  - by left.
Qed.

(** [setup] hands an object on. *)
Lemma setup_inlineOptions (E : environment) (options : obj) (trace : list event)
    (projectRoot : jsval) (browserOptions : obj) (inlineOptions : jsval) :
  setup E options = (trace, Normal (projectRoot, browserOptions, inlineOptions)) ->
  exists m, inlineOptions = VObj m.
Proof.
  intros H. apply setup_Normal in H
    as (target & raw & name & babel & vue & merged & cw & _ & _ & _ & _ & _ & _ & _
        & Hmerge & _ & Hcw).
  assert (exists m, merged = VObj m) as [m ->].
  { assert (exists c, js_or vue (VObj ∅) = VObj c) as [c Hc].
    { unfold js_or. destruct (truthy vue) eqn:Hvue; [|by eauto].
      eapply mergeOptions_config; [|exact Hvue].
      unfold js_or in Hmerge. rewrite Hvue in Hmerge. exact Hmerge. }
    rewrite Hc, mergeOptions_layers, !merge_obj in Hmerge. simplify_eq. eauto. }
  destruct (truthy cw); destruct Hcw as [Hio _].
  - cbn in Hio. simplify_eq. eauto.
  - subst. eauto.
Qed.

(** ** The shape of the pipeline *)

Lemma orDevServer_obj (explicit : jsval) (inlineOptions : obj) (key : string) :
  orDevServer explicit (VObj inlineOptions) key
  = ([], Normal (js_or explicit (get_optional (get inlineOptions "devServer") key))).
Proof. unfold orDevServer, js_or. by destruct (truthy explicit). Qed.

Lemma serveArgs_obj (options browserOptions inlineOptions : obj) :
  serveArgs options browserOptions (VObj inlineOptions)
  = mret (serveObject options browserOptions
       (js_or (get options "open") (get_optional (get inlineOptions "devServer") "open"))
       (js_or (get options "host") (get_optional (get inlineOptions "devServer") "host"))
       (js_or (get options "port") (get_optional (get inlineOptions "devServer") "port"))
       (js_or (get options "https") (get_optional (get inlineOptions "devServer") "https"))
       (js_or (get options "public") (get_optional (get inlineOptions "devServer") "public"))).
Proof. unfold serveArgs. by rewrite !orDevServer_obj. Qed.

Lemma serve_cases (E : environment) (options browserOptions inlineOptions : obj)
    (projectRoot : jsval) :
  let served := serve E options (projectRoot, browserOptions, VObj inlineOptions) in
  (exists e, served = ([], Throw e))
  \/ (exists pkg e,
        served = ([EvService (getSystemPath E projectRoot) pkg (VObj inlineOptions)], Throw e))
  \/ (exists pkg run args,
        serveArgs options browserOptions (VObj inlineOptions) = ([], Normal args)
        /\ served = ([EvService (getSystemPath E projectRoot) pkg (VObj inlineOptions);
                      EvRun "serve" args ["serve"] (run "serve" args ["serve"])],
                     Normal (observed (run "serve" args ["serve"])))).
Proof.
  unfold serve.
  destruct (checkUnsupportedConfig E projectRoot) as [[]|e]; [|by eauto].
  rewrite bind_lift_Normal.
  destruct (resolvePkg E (workspaceRoot E)) as [pkg|e]; [|by eauto].
  rewrite bind_lift_Normal, bind_emit.
  destruct (Service E _ pkg _) as [run|e]; [|by eauto 6].
  rewrite bind_lift_Normal.
  right; right. exists pkg, run. eexists. split; [apply serveArgs_obj|].
  unfold subscribe. rewrite serveArgs_obj, bind_ret, bind_emit.
  unfold Rx.Observable, observed.
  by destruct (run "serve" _ ["serve"]) as [[|]|].
Qed.

Lemma switchMap_from_promise {Ev A B} (project : A -> W Ev (Rx.stream B)) (p : settled A) :
  Rx.switchMap project (Rx.from p)
  = match p with
    | Resolved a => ((project a).1,
                     Normal (match (project a).2 with
                             | Normal s => s
                             | Throw e => Rx.Stream [] (Rx.Errored e)
                             end))
    | Rejected e => ([], Normal (Rx.Stream [] (Rx.Errored e)))
    end.
Proof.
  destruct p as [a|e]; [|reflexivity].
  unfold Rx.switchMap. cbn. destruct (project a) as [t [[vs []]|e]]; cbn;
    rewrite ?app_nil_r; reflexivity.
Qed.

Lemma normalizeCss_cases (options : obj) :
  normalizeCss options = ([], Throw TypeError)
  \/ normalizeCss options = ([], Normal options)
  \/ normalizeCss options = ([], Normal (<["css" := VUndef]> options)).
Proof.
  unfold normalizeCss.
  destruct (get options "css") as [| | | | | |css| | |]; cbn [get_prop];
    repeat (rewrite ?bind_lift_Normal, ?bind_lift_Throw;
            progress cbn [get_prop is_undefined Object_keys]);
    rewrite ?bind_lift_Normal, ?bind_lift_Throw; auto.
  destruct (is_undefined (get css "requireModuleExtension")); [|by auto].
  destruct (is_undefined (get css "extract")); [|by auto].
  destruct (is_undefined (get css "sourceMap")); [|by auto].
  destruct (Object_keys (get css "loaderOptions")) as [keys|e] eqn:Hkeys.
  - rewrite bind_lift_Normal. case_bool_decide; auto.
  - rewrite bind_lift_Throw. left.
    by destruct (get css "loaderOptions"); simplify_eq/=.
Qed.

(** The stream as its subscriber sees it, by what [setup] and the
    service came to. *)
Lemma runBuilder_unfold (E : environment) (options options' : obj) :
  normalizeCss options = ([], Normal options') ->
  runBuilder E options
  = match (setup E options').2 with
    | Throw e => ((setup E options').1, Normal (Rx.Stream [] (Rx.Errored e)))
    | Normal resolved =>
        ((setup E options').1 ++ (serve E options' resolved).1,
         Normal (Rx.map toBuilderOutput
                   (match (serve E options' resolved).2 with
                    | Normal s => s
                    | Throw e => Rx.Stream [] (Rx.Errored e)
                    end)))
    end.
Proof.
  intros Hcss. unfold runBuilder. rewrite Hcss, bind_nil.
  unfold async. rewrite bind_pair.
  destruct (setup E options') as [t [resolved|e]]; cbn [fst snd];
    rewrite switchMap_from_promise, bind_pair; cbn [fst snd mret W_ret];
    by rewrite ?app_nil_r.
Qed.

(** The runs of [runBuilder]: it throws at once; or [setup] fails; or the
    service cannot be constructed; or the service is run. *)
Lemma runBuilder_cases (E : environment) (options : obj) :
  runBuilder E options = ([], Throw TypeError)
     /\ normalizeCss options = ([], Throw TypeError)
  \/ exists options',
       normalizeCss options = ([], Normal options')
       /\ ((exists e, (setup E options').2 = Throw e
              /\ runBuilder E options
                 = ((setup E options').1, Normal (Rx.Stream [] (Rx.Errored e))))
           \/ exists trace projectRoot browserOptions inlineOptions,
                setup E options'
                = (trace, Normal (projectRoot, browserOptions, VObj inlineOptions))
                /\ ((exists e,
                       runBuilder E options
                       = (trace, Normal (Rx.Stream [] (Rx.Errored e))))
                    \/ (exists pkg e,
                          runBuilder E options
                          = (trace ++ [EvService (getSystemPath E projectRoot) pkg
                                         (VObj inlineOptions)],
                             Normal (Rx.Stream [] (Rx.Errored e))))
                    \/ (exists pkg run args,
                          serveArgs options' browserOptions (VObj inlineOptions)
                          = ([], Normal args)
                          /\ runBuilder E options
                             = (trace ++ [EvService (getSystemPath E projectRoot) pkg
                                            (VObj inlineOptions);
                                          EvRun "serve" args ["serve"]
                                            (run "serve" args ["serve"])],
                                Normal (Rx.map toBuilderOutput
                                          (observed (run "serve" args ["serve"]))))))).
Proof.
  destruct (normalizeCss_cases options) as [Hcss|Hcss].
  { left. split; [|done]. unfold runBuilder. by rewrite Hcss. }
  right.
  assert (exists options', normalizeCss options = ([], Normal options')) as [options' Hcss']
    by (destruct Hcss; eauto).
  clear Hcss. exists options'. split; [done|].
  rewrite (runBuilder_unfold E options options' Hcss').
  destruct (setup E options') as [trace [[[projectRoot browserOptions] inlineOptions]|e]] eqn:Hsetup;
    cbn [fst snd]; [|by eauto].
  right. destruct (setup_inlineOptions _ _ _ _ _ _ Hsetup) as [m ->].
  exists trace, projectRoot, browserOptions, m. split; [done|].
  destruct (serve_cases E options' browserOptions m projectRoot)
    as [[e ->]|[(pkg & e & ->)|(pkg & run & args & Hargs & ->)]]; cbn [fst snd].
  - left. exists e. by rewrite app_nil_r.
  - right; left. by exists pkg, e.
  - right; right. by exists pkg, run, args.
Qed.

(** ** The result stream *)

(** What [map] makes of what the subscriber of [new Observable] sees. *)
Lemma map_observed (result : completion (settled jsval)) :
  Rx.map toBuilderOutput (observed result)
  = match result with
    | Normal (Resolved success) =>
        match toBuilderOutput success with
        | Normal output => Rx.Stream [output] Rx.Open
        | Throw e => Rx.Stream [] (Rx.Errored e)
        end
    | Normal (Rejected err) => Rx.Stream [] (Rx.Errored err)
    | Throw e => Rx.Stream [] (Rx.Errored e)
    end.
Proof.
  by destruct result as [[success|err]|e].
Qed.

(** C3, amended.  Whenever [runBuilder] returns a stream, its subscriber
    sees exactly one outcome: one output, after which the stream is left
    open (nothing more is delivered, and [complete] is never sent), or one
    error and no output, which ends the stream. *)
Theorem runBuilder_one_outcome (E : environment) (options : obj) (trace : list event)
    (results : Rx.stream jsval) :
  runBuilder E options = (trace, Normal results) ->
  (exists output, results = Rx.Stream [output] Rx.Open)
  \/ (exists e, results = Rx.Stream [] (Rx.Errored e)).
Proof.
  intros Hrun.
  destruct (runBuilder_cases E options)
    as [[H _]|(options' & _ & [(e & _ & H)|(t & root & bo & io & _ & H)])].
  - rewrite H in Hrun. discriminate Hrun.
  - rewrite H in Hrun. simplify_eq. eauto.
  - destruct H as [[e H]|[(pkg & e & H)|(pkg & run & args & _ & H)]];
      rewrite H in Hrun; simplify_eq; eauto.
    rewrite map_observed.
    destruct (run "serve" args ["serve"]) as [[success|err]|e]; eauto.
    destruct (toBuilderOutput success); eauto.
Qed.

Lemma runBuilder_one_outcome_witness :
  runBuilder sampleProject sampleOptions
  = ((runBuilder sampleProject sampleOptions).1, Normal (Rx.Stream [sampleOutput] Rx.Open))
  /\ ((exists output, Rx.Stream [sampleOutput] Rx.Open = Rx.Stream [output] Rx.Open)
      \/ (exists e, Rx.Stream [sampleOutput] Rx.Open = Rx.Stream [] (Rx.Errored e))).
Proof.
  assert (runBuilder sampleProject sampleOptions
          = ((runBuilder sampleProject sampleOptions).1,
             Normal (Rx.Stream [sampleOutput] Rx.Open))) as Hrun
    by reflexivity.
  split; [exact Hrun|].
  exact (runBuilder_one_outcome sampleProject sampleOptions _ _ Hrun).
Defined.

(** The stream of a successful run has delivered its output and is not
    closed: no terminal notification follows the emission. *)
Lemma stream_open_after_output :
  exists trace results,
    runBuilder sampleProject sampleOptions = (trace, Normal results)
    /\ Rx.emitted results = [sampleOutput]
    /\ Rx.ending_of results = Rx.Open.
Proof.
  exists (runBuilder sampleProject sampleOptions).1, (Rx.Stream [sampleOutput] Rx.Open).
  split; [reflexivity|done].
Qed.

(** ** Reading the trace of a run *)

Lemma setup_events (E : environment) (options : obj) (ev : event) :
  ev ∈ (setup E options).1 ->
  (exists target raw name,
      targetFromTargetString E (get options "browserTarget") = Normal target
      /\ getTargetOptions E target = Resolved raw
      /\ getBuilderNameForTarget E target = Resolved name
      /\ ev = EvValidate (spread raw (overrides options)) name)
  \/ ev = EvWarn deprecation.
Proof.
  destruct (setup_trace E options)
    as [->|(target & raw & name & Htarget & Hraw & Hname & [->| ->])];
    rewrite ?elem_of_cons, ?elem_of_nil; intros H.
  - done.
  - left. exists target, raw, name. by destruct H as [H|H].
  - destruct H as [H|[H|H]]; [left|by right|done].
    by exists target, raw, name.
Qed.


Lemma setup_warnings (E : environment) (options : obj) :
  warnings (setup E options).1 = []
  \/ warnings (setup E options).1 = [deprecation].
Proof.
  destruct (setup_trace E options) as [->|(? & ? & ? & _ & _ & _ & [->| ->])]; auto.
Qed.

(** A call of [service.run] in the trace: [setup] had succeeded, the
    call is the last event, and the stream is what [map] makes of it. *)
Lemma runBuilder_run (E : environment) (options : obj) (trace : list event)
    (result : completion (Rx.stream jsval)) (name : string) (args : obj)
    (rawArgv : list string) (outcome : completion (settled jsval)) :
  runBuilder E options = (trace, result) ->
  EvRun name args rawArgv outcome ∈ trace ->
  exists options' t projectRoot browserOptions inlineOptions pkg,
    normalizeCss options = ([], Normal options')
    /\ setup E options' = (t, Normal (projectRoot, browserOptions, VObj inlineOptions))
    /\ serveArgs options' browserOptions (VObj inlineOptions) = ([], Normal args)
    /\ name = "serve" /\ rawArgv = ["serve"]
    /\ trace = t ++ [EvService (getSystemPath E projectRoot) pkg (VObj inlineOptions);
                     EvRun name args rawArgv outcome]
    /\ result = Normal (Rx.map toBuilderOutput (observed outcome)).
Proof.
  intros Hrun Hev.
  assert (forall options', EvRun name args rawArgv outcome ∉ (setup E options').1) as Hsetup.
  { intros options' [(? & ? & ? & _ & _ & _ & ?)|?]%setup_events; discriminate. }
  destruct (runBuilder_cases E options)
    as [[H _]|(options' & Hcss & [(e & _ & H)|(t & root & bo & io & Ht & H)])].
  - rewrite H in Hrun. simplify_eq. by apply elem_of_nil in Hev.
  - rewrite H in Hrun. simplify_eq. by apply Hsetup in Hev.
  - specialize (Hsetup options'). rewrite Ht in Hsetup. cbn [fst] in Hsetup.
    destruct H as [[e H]|[(pkg & e & H)|(pkg & run & args' & Hargs & H)]];
      rewrite H in Hrun; simplify_eq.
    + done.
    + apply elem_of_app in Hev as [?|Hev]; [done|].
      apply elem_of_cons in Hev as [?|Hev]; [done|]. by apply elem_of_nil in Hev.
    + apply elem_of_app in Hev as [?|Hev]; [done|].
      apply elem_of_cons in Hev as [?|Hev]; [done|].
      apply elem_of_cons in Hev as [?|Hev]; [|by apply elem_of_nil in Hev].
      simplify_eq. by exists options', t, root, bo, io, pkg.
Qed.

(** The last event of a trace that ends with a call of the service. *)
Lemma last_event (trace : list event) (ev : event) :
  last trace = Some ev -> ev ∈ trace.
Proof.
  intros H. apply last_Some in H as [l ->]. apply elem_of_app. right. by left.
Qed.

(** ** The delegate *)





(** ** The css sub-options and the overrides *)

Lemma normalizeCss_get (options options' : obj) (key : string) :
  normalizeCss options = ([], Normal options') ->
  key <> "css" ->
  get options' key = get options key.
Proof.
  intros Hcss Hkey.
  destruct (normalizeCss_cases options) as [H|[H|H]]; rewrite H in Hcss; simplify_eq.
  - done.
  - unfold get. by rewrite lookup_insert_ne.
Qed.

Lemma lookup_foldl_spread (options : obj) (keys : list string) (init : obj) (key : string) :
  foldl (fun previous k => spread previous {[ k := get options k ]}) init keys !! key
  = if decide (key ∈ keys) then Some (get options key) else init !! key.
Proof.
  revert init. induction keys as [|k keys IH]; intros init; cbn [foldl].
  - by rewrite decide_False by apply not_elem_of_nil.
  - rewrite IH. unfold spread.
    destruct (decide (key ∈ keys)) as [Hin|Hnotin].
    + by rewrite decide_True by (by right).
    + destruct (decide (key = k)) as [->|Hne].
      * rewrite decide_True by (by left).
        apply lookup_union_Some_l, lookup_singleton_eq.
      * rewrite decide_False by (by intros [?|?]%elem_of_cons).
        apply lookup_union_r. by rewrite lookup_singleton_ne.
Qed.

(** The overrides are the whitelisted options with a defined value. *)
Lemma lookup_overrides (options : obj) (key : string) :
  overrides options !! key
  = if decide (key ∈ devServerBuilderOverriddenKeys /\ is_undefined (get options key) = false)
    then Some (get options key)
    else None.
Proof.
  unfold overrides. rewrite lookup_foldl_spread, lookup_empty.
  apply decide_ext. rewrite list_elem_of_filter, list_elem_of_fmap. split.
  - by intros [[Hdef Hkey] _].
  - intros [Hkey Hdef]. split; [done|].
    unfold get in Hdef. destruct (options !! key) as [v|] eqn:Hv; [|done].
    exists (key, v). split; [done|]. by apply elem_of_map_to_list.
Qed.

Lemma lookup_spread_overrides (raw options : obj) (key : string) :
  spread raw (overrides options) !! key
  = if decide (key ∈ devServerBuilderOverriddenKeys /\ is_undefined (get options key) = false)
    then Some (get options key)
    else raw !! key.
Proof.
  unfold spread. pose proof (lookup_overrides options key) as H.
  case_decide.
  - by apply lookup_union_Some_l.
  - by apply lookup_union_r.
Qed.

(** [setup] asks for the validation of the raw options with the overrides
    laid over them; a rejection is its own rejection, and the browser
    options it goes on with are the answer. *)
Lemma setup_validation (E : environment) (options raw : obj) (target name : jsval) :
  targetFromTargetString E (get options "browserTarget") = Normal target ->
  getTargetOptions E target = Resolved raw ->
  getBuilderNameForTarget E target = Resolved name ->
  head (setup E options).1 = Some (EvValidate (spread raw (overrides options)) name)
  /\ (forall e,
        validateOptions E (spread raw (overrides options)) name = Rejected e ->
        setup E options = ([EvValidate (spread raw (overrides options)) name], Throw e))
  /\ (forall trace projectRoot browserOptions inlineOptions,
        setup E options = (trace, Normal (projectRoot, browserOptions, inlineOptions)) ->
        validateOptions E (spread raw (overrides options)) name = Resolved browserOptions).
Proof.
  intros Htarget Hraw Hname. split; [|split].
  - unfold setup.
    rewrite Htarget, bind_lift_Normal, Hraw, await_Resolved, bind_lift_Normal.
    rewrite Hname, await_Resolved, bind_lift_Normal, bind_emit. reflexivity.
  - intros e Hvalid. unfold setup.
    rewrite Htarget, bind_lift_Normal, Hraw, await_Resolved, bind_lift_Normal.
    rewrite Hname, await_Resolved, bind_lift_Normal, bind_emit.
    rewrite Hvalid, await_Rejected, bind_lift_Throw. reflexivity.
  - intros trace root bo io Hsetup.
    destruct (setup_Normal _ _ _ _ _ _ Hsetup)
      as (target' & raw' & name' & ? & ? & ? & ? & Htarget' & Hraw' & Hname' & Hvalid & _).
    rewrite Htarget in Htarget'. injection Htarget' as <-.
    rewrite Hraw in Hraw'. injection Hraw' as <-.
    rewrite Hname in Hname'. injection Hname' as <-.
    exact Hvalid.
Qed.

(** The same, seen from the invocation. *)
Lemma runBuilder_validation (E : environment) (options options' raw : obj)
    (target name : jsval) :
  normalizeCss options = ([], Normal options') ->
  targetFromTargetString E (get options "browserTarget") = Normal target ->
  getTargetOptions E target = Resolved raw ->
  getBuilderNameForTarget E target = Resolved name ->
  head (runBuilder E options).1 = Some (EvValidate (spread raw (overrides options')) name)
  /\ (forall e,
        validateOptions E (spread raw (overrides options')) name = Rejected e ->
        runBuilder E options
        = ([EvValidate (spread raw (overrides options')) name],
           Normal (Rx.Stream [] (Rx.Errored e))))
  /\ (forall trace projectRoot browserOptions inlineOptions,
        setup E options' = (trace, Normal (projectRoot, browserOptions, inlineOptions)) ->
        validateOptions E (spread raw (overrides options')) name = Resolved browserOptions).
Proof.
  intros Hcss Htarget Hraw Hname.
  rewrite <- (normalizeCss_get options options' "browserTarget" Hcss) in Htarget
    by discriminate.
  destruct (setup_validation E options' raw target name Htarget Hraw Hname)
    as (Hhead & Hrejected & Hresolved).
  split; [|split; [|exact Hresolved]].
  - rewrite (runBuilder_unfold E options options' Hcss).
    destruct (setup E options') as [t [resolved|e]]; cbn [fst snd] in *; [|exact Hhead].
    destruct t; [discriminate Hhead|exact Hhead].
  - intros e Hvalid. rewrite (runBuilder_unfold E options options' Hcss).
    rewrite (Hrejected e Hvalid). reflexivity.
Qed.

(** C6.  With the target, its raw options and its builder name
    resolved, [validateOptions] is applied to an object that holds, for
    every key, the dev-server option when the key is one of [mode],
    [skipPlugins], [publicPath], [css], [stdin] and the option is
    defined, and otherwise what the raw browser-target options hold.  The
    dev-server options are read after builder.ts:53-60, which leaves
    every key but [css] as it was.  That it is this object which is
    validated shows in the result: a rejection of [validateOptions] on it
    is the error of the stream, and the browser options [setup] goes on
    with are the answer of [validateOptions] on it. *)
Theorem overrides_before_validation (E : environment) (options options' raw : obj)
    (target name : jsval) :
  normalizeCss options = ([], Normal options') ->
  targetFromTargetString E (get options "browserTarget") = Normal target ->
  getTargetOptions E target = Resolved raw ->
  getBuilderNameForTarget E target = Resolved name ->
  exists input,
    (forall key,
       input !! key
       = if decide (key ∈ devServerBuilderOverriddenKeys
                    /\ is_undefined (get options' key) = false)
         then Some (get options' key)
         else raw !! key)
    /\ (forall key, key <> "css" -> get options' key = get options key)
    /\ head (runBuilder E options).1 = Some (EvValidate input name)
    /\ (forall e,
          validateOptions E input name = Rejected e ->
          runBuilder E options
          = ([EvValidate input name], Normal (Rx.Stream [] (Rx.Errored e))))
    /\ (forall trace projectRoot browserOptions inlineOptions,
          setup E options' = (trace, Normal (projectRoot, browserOptions, inlineOptions)) ->
          validateOptions E input name = Resolved browserOptions).
Proof.
  intros Hcss Htarget Hraw Hname.
  destruct (runBuilder_validation E options options' raw target name Hcss Htarget Hraw Hname)
    as (Hhead & Hrejected & Hresolved).
  exists (spread raw (overrides options')).
  split; [intros key; apply lookup_spread_overrides|].
  split; [intros key Hkey; exact (normalizeCss_get options options' key Hcss Hkey)|].
  split; [exact Hhead|]. split; [exact Hrejected|exact Hresolved].
Qed.

Lemma overrides_before_validation_witness :
  exists input,
    (forall key,
       input !! key
       = if decide (key ∈ devServerBuilderOverriddenKeys
                    /\ is_undefined (get sampleOptions key) = false)
         then Some (get sampleOptions key)
         else ({[ "mode" := VStr "development"; "dest" := VStr "dist/apps/demo" ]} : obj)
                !! key)
    /\ head (runBuilder sampleProject sampleOptions).1
       = Some (EvValidate input (VStr "@nx-plus/vue:browser"))
    /\ forall trace projectRoot browserOptions inlineOptions,
         setup sampleProject sampleOptions
         = (trace, Normal (projectRoot, browserOptions, inlineOptions)) ->
         validateOptions sampleProject input (VStr "@nx-plus/vue:browser")
         = Resolved browserOptions.
Proof.
  destruct (overrides_before_validation sampleProject sampleOptions sampleOptions
              {[ "mode" := VStr "development"; "dest" := VStr "dist/apps/demo" ]}
              (VStr "demo:build") (VStr "@nx-plus/vue:browser")
              eq_refl eq_refl eq_refl eq_refl)
    as (input & Hkeys & _ & Hhead & _ & Hresolved).
  exists input. split; [exact Hkeys|]. split; [exact Hhead|exact Hresolved].
Defined.

Lemma Object_keys_empty (o : obj) (keys : list string) :
  Object_keys (VObj o) = Normal keys -> (length keys = 0%nat <-> o = ∅).
Proof.
  intros [= <-]. rewrite length_fmap, length_map_to_list. apply map_size_empty_iff.
Qed.

Lemma normalizeCss_unset (options css : obj) :
  get options "css" = VObj css ->
  is_undefined (get css "requireModuleExtension") = true ->
  is_undefined (get css "extract") = true ->
  is_undefined (get css "sourceMap") = true ->
  get css "loaderOptions" = VObj ∅ ->
  normalizeCss options = ([], Normal (<["css" := VUndef]> options)).
Proof.
  intros Hcss Hrme Hextract HsourceMap Hloader. unfold normalizeCss.
  rewrite Hcss. cbn [get_prop].
  by rewrite !bind_lift_Normal, Hrme, Hextract, HsourceMap, Hloader.
Qed.

Lemma normalizeCss_set (options css : obj) :
  get options "css" = VObj css ->
  is_undefined (get css "requireModuleExtension") = false
  \/ is_undefined (get css "extract") = false
  \/ is_undefined (get css "sourceMap") = false
  \/ (exists loaderOptions,
        get css "loaderOptions" = VObj loaderOptions /\ loaderOptions <> ∅) ->
  normalizeCss options = ([], Normal options).
Proof.
  intros Hcss Hset. unfold normalizeCss.
  rewrite Hcss. cbn [get_prop]. rewrite !bind_lift_Normal.
  destruct (is_undefined (get css "requireModuleExtension")); [|done].
  destruct (is_undefined (get css "extract")); [|done].
  destruct (is_undefined (get css "sourceMap")); [|done].
  destruct Hset as [?|[?|[?|(loaderOptions & Hloader & Hne)]]]; try done.
  rewrite Hloader.
  destruct (Object_keys (VObj loaderOptions)) as [keys|e] eqn:Hkeys; [|done].
  rewrite bind_lift_Normal. case_bool_decide as Hlen; [|done].
  by apply (Object_keys_empty _ _ Hkeys) in Hlen.
Qed.

(** ** What the service is run with *)

(** The invocation in which the service is constructed: [service.run] is
    applied to the object of builder.ts:178-188, and the stream is what
    [map] makes of that call. *)
Lemma runBuilder_served (E : environment) (options options' browserOptions : obj)
    (trace : list event) (projectRoot inlineOptions pkg : jsval) (run : service) :
  normalizeCss options = ([], Normal options') ->
  setup E options' = (trace, Normal (projectRoot, browserOptions, inlineOptions)) ->
  checkUnsupportedConfig E projectRoot = Normal tt ->
  resolvePkg E (workspaceRoot E) = Normal pkg ->
  Service E (getSystemPath E projectRoot) pkg inlineOptions = Normal run ->
  exists (inline : obj) args,
    inlineOptions = VObj inline
    /\ serveArgs options' browserOptions (VObj inline) = ([], Normal args)
    /\ runBuilder E options
       = (trace ++ [EvService (getSystemPath E projectRoot) pkg inlineOptions;
                    EvRun "serve" args ["serve"] (run "serve" args ["serve"])],
          Normal (Rx.map toBuilderOutput (observed (run "serve" args ["serve"])))).
Proof.
  intros Hcss Hsetup Hcheck Hpkg Hservice.
  destruct (setup_inlineOptions _ _ _ _ _ _ Hsetup) as [inline ->].
  exists inline. eexists. split; [reflexivity|]. split; [apply serveArgs_obj|].
  rewrite (runBuilder_unfold E options options' Hcss), Hsetup. cbn [fst snd].
  unfold serve.
  rewrite Hcheck, bind_lift_Normal, Hpkg, bind_lift_Normal, bind_emit, Hservice,
    bind_lift_Normal.
  unfold subscribe. rewrite serveArgs_obj, bind_ret, bind_emit.
  unfold Rx.Observable, observed. cbn [fst snd].
  by destruct (run "serve" _ ["serve"]) as [[|]|].
Qed.

(** C8.  When the service has been constructed, [service.run] is applied
    to an object in which each of [open], [host], [port], [https] and
    [public] is the dev-server option when that is truthy, and otherwise
    the field of [devServer] in the inline options; the stream is what
    [map] makes of this very call. *)
Theorem serve_arguments (E : environment) (options options' browserOptions : obj)
    (trace : list event) (projectRoot inlineOptions pkg : jsval) (run : service) :
  normalizeCss options = ([], Normal options') ->
  setup E options' = (trace, Normal (projectRoot, browserOptions, inlineOptions)) ->
  checkUnsupportedConfig E projectRoot = Normal tt ->
  resolvePkg E (workspaceRoot E) = Normal pkg ->
  Service E (getSystemPath E projectRoot) pkg inlineOptions = Normal run ->
  exists args,
    (forall key,
       key ∈ ["open"; "host"; "port"; "https"; "public"] ->
       args !! key
       = Some (if truthy (get options key)
               then get options key
               else get_optional (get_optional inlineOptions "devServer") key))
    /\ runBuilder E options
       = (trace ++ [EvService (getSystemPath E projectRoot) pkg inlineOptions;
                    EvRun "serve" args ["serve"] (run "serve" args ["serve"])],
          Normal (Rx.map toBuilderOutput (observed (run "serve" args ["serve"])))).
Proof.
  intros Hcss Hsetup Hcheck Hpkg Hservice.
  destruct (runBuilder_served _ _ _ _ _ _ _ _ _ Hcss Hsetup Hcheck Hpkg Hservice)
    as (inline & args & -> & Hargs & Hrun).
  exists args. split; [|exact Hrun].
  rewrite serveArgs_obj in Hargs. injection Hargs as <-.
  intros key Hkey. cbn [get_optional].
  rewrite <- (normalizeCss_get options options' key Hcss).
  - repeat (apply elem_of_cons in Hkey as [->|Hkey]; [reflexivity|]).
    by apply elem_of_nil in Hkey.
  - intros ->. repeat (apply elem_of_cons in Hkey as [?|Hkey]; [discriminate|]).
    by apply elem_of_nil in Hkey.
Qed.

Lemma serve_arguments_witness :
  exists trace projectRoot browserOptions inlineOptions args,
    setup sampleProject sampleOptions
    = (trace, Normal (projectRoot, browserOptions, inlineOptions))
    /\ get sampleOptions "port" = VNum 0
    /\ args !! "port" = Some (VNum 4000)
    /\ runBuilder sampleProject sampleOptions
       = (trace ++ [EvService projectRoot (VObj ∅) inlineOptions;
                    EvRun "serve" args ["serve"] (sampleService "serve" args ["serve"])],
          Normal (Rx.map toBuilderOutput (observed (sampleService "serve" args ["serve"])))).
Proof.
  destruct (setup sampleProject sampleOptions)
    as [trace [[[projectRoot browserOptions] inlineOptions]|e]] eqn:Hsetup;
    [|discriminate Hsetup].
  destruct (serve_arguments sampleProject sampleOptions sampleOptions browserOptions trace
              projectRoot inlineOptions (VObj ∅) sampleService
              eq_refl Hsetup eq_refl eq_refl eq_refl)
    as (args & Hkeys & Hrun).
  exists trace, projectRoot, browserOptions, inlineOptions, args.
  split; [reflexivity|]. split; [reflexivity|]. split; [|exact Hrun].
  rewrite (Hkeys "port") by (do 2 apply list_elem_of_further; apply list_elem_of_here).
  change inlineOptions
    with (inlineOptions_of (trace, Normal (projectRoot, browserOptions, inlineOptions))).
  rewrite <- Hsetup. vm_compute. reflexivity.
Defined.

(** ** The css precondition *)

Lemma runBuilder_returns (E : environment) (options options' : obj) :
  normalizeCss options = ([], Normal options') ->
  exists trace results, runBuilder E options = (trace, Normal results).
Proof.
  intros Hcss. rewrite (runBuilder_unfold E options options' Hcss).
  destruct (setup E options').2; eauto.
Qed.

(** C9, amended.  [runBuilder] throws at once when [options.css] is
    undefined or null, and when the three scalar sub-options are undefined
    and [loaderOptions] is undefined or null.  When one of the scalar
    sub-options is defined, [loaderOptions] is not read: [runBuilder]
    returns its stream whatever [loaderOptions] is. *)
Theorem css_precondition (E : environment) (options : obj) :
  (is_nullish (get options "css") = true ->
   runBuilder E options = ([], Throw TypeError))
  /\ (forall css,
        get options "css" = VObj css ->
        is_undefined (get css "requireModuleExtension") = true ->
        is_undefined (get css "extract") = true ->
        is_undefined (get css "sourceMap") = true ->
        is_nullish (get css "loaderOptions") = true ->
        runBuilder E options = ([], Throw TypeError))
  /\ (forall css,
        get options "css" = VObj css ->
        is_undefined (get css "requireModuleExtension") = false
        \/ is_undefined (get css "extract") = false
        \/ is_undefined (get css "sourceMap") = false ->
        exists trace results, runBuilder E options = (trace, Normal results)).
Proof.
  split_and!.
  - intros Hnull. unfold runBuilder, normalizeCss.
    by destruct (get options "css").
  - intros css Hcss Hrme Hextract HsourceMap Hloader. unfold runBuilder, normalizeCss.
    rewrite Hcss. cbn [get_prop].
    rewrite !bind_lift_Normal, Hrme, Hextract, HsourceMap.
    by destruct (get css "loaderOptions").
  - intros css Hcss Hset. eapply runBuilder_returns, normalizeCss_set; [done|].
    destruct Hset as [?|[?|?]]; auto.
Qed.

Lemma css_precondition_witness :
  (is_nullish (get (delete "css" sampleOptions) "css") = true
   /\ runBuilder sampleProject (delete "css" sampleOptions) = ([], Throw TypeError))
  /\ (is_nullish (get (∅ : obj) "loaderOptions") = true
      /\ runBuilder sampleProject (<["css" := VObj ∅]> sampleOptions) = ([], Throw TypeError))
  /\ (is_undefined (get ({[ "extract" := VBool true ]} : obj) "extract") = false
      /\ exists trace results,
           runBuilder sampleProject sampleOptions = (trace, Normal results)).
Proof.
  split; [|split]; (split; [reflexivity|]).
  - exact (proj1 (css_precondition sampleProject (delete "css" sampleOptions)) eq_refl).
  - exact (proj1 (proj2 (css_precondition sampleProject (<["css" := VObj ∅]> sampleOptions)))
             ∅ eq_refl eq_refl eq_refl eq_refl eq_refl).
  - exact (proj2 (proj2 (css_precondition sampleProject sampleOptions))
             {[ "extract" := VBool true ]} eq_refl (or_intror (or_introl eq_refl))).
Defined.

(** [options.css.loaderOptions] is undefined and [runBuilder] returns. *)
Lemma loaderOptions_not_read :
  get_prop (get sampleOptions "css") "loaderOptions" = Normal VUndef
  /\ exists trace results,
       runBuilder sampleProject sampleOptions = (trace, Normal results).
Proof.
  split; [reflexivity|].
  by exists (runBuilder sampleProject sampleOptions).1, (Rx.Stream [sampleOutput] Rx.Open).
Qed.

(** ** The merged inline options *)

Lemma is_undefined_eq (v : jsval) : is_undefined v = true -> v = VUndef.
Proof. by destruct v. Qed.

Lemma over_undefined_l (value : jsval) : over VUndef value = value.
Proof.
  unfold over. destruct (is_undefined value) eqn:Hv.
  - symmetry. by apply is_undefined_eq.
  - by apply merge_replace, andb_false_r.
Qed.

Lemma over_replace (lower value : jsval) :
  is_undefined value = false ->
  isOptionObject value && isOptionObject lower = false ->
  over lower value = value.
Proof. intros Hdef Hplain. unfold over. rewrite Hdef. by apply merge_replace. Qed.

(** Two option objects are merged key by key, under the same rule. *)
Lemma over_objects (lower value : obj) :
  exists merged,
    over (VObj lower) (VObj value) = VObj merged
    /\ forall key, get merged key = over (get lower key) (get value key).
Proof.
  eexists. split; [reflexivity|]. intros key. apply get_mergeKeys.
Qed.

Lemma over_precedence (default config explicit : jsval) :
  isOptionObject (precedence default config explicit) = false ->
  over (over default config) explicit = precedence default config explicit.
Proof.
  unfold precedence. intros Hplain.
  destruct (is_undefined explicit) eqn:He.
  - unfold over at 1. rewrite He.
    destruct (is_undefined config) eqn:Hc.
    + unfold over. by rewrite Hc.
    + apply over_replace; [done|]. by rewrite Hplain.
  - apply over_replace; [done|]. by rewrite Hplain.
Qed.

(** What a successful [setup] hands on: the three layers merged, and the
    legacy hook, when [resolveConfigureWebpack] found one, under
    [configureWebpack]. *)
Lemma setup_merged (E : environment) (options : obj) (trace : list event)
    (projectRoot : jsval) (browserOptions : obj) (inlineOptions : jsval) :
  setup E options = (trace, Normal (projectRoot, browserOptions, inlineOptions)) ->
  exists babelConfig vueConfig hook (config merged : obj),
    getBabelConfig E projectRoot = Normal babelConfig
    /\ resolveVueConfig E projectRoot = Normal vueConfig
    /\ resolveConfigureWebpack E projectRoot = Normal hook
    /\ js_or vueConfig (VObj ∅) = VObj config
    /\ MergeOptions.mergeOptions true
         [VObj defaults; VObj config;
          VObj (explicitOptions options browserOptions babelConfig (VObj config))]
       = Normal (VObj merged)
    /\ (forall key,
          get merged key
          = over (over (get defaults key) (get config key))
                 (get (explicitOptions options browserOptions babelConfig (VObj config)) key))
    /\ inlineOptions
       = VObj (if truthy hook then <["configureWebpack" := hook]> merged else merged)
    /\ warnings trace = (if truthy hook then [deprecation] else []).
Proof.
  intros H. apply setup_Normal in H
    as (target & raw & name & babel & vue & merged & hook & _ & _ & _ & _ & _ & Hbabel
        & Hvue & Hmerge & Hhook & Hio).
  assert (exists config, js_or vue (VObj ∅) = VObj config) as [config Hconfig].
  { unfold js_or. destruct (truthy vue) eqn:Htruthy; [|by eauto].
    eapply mergeOptions_config; [|exact Htruthy].
    unfold js_or in Hmerge. rewrite Htruthy in Hmerge. exact Hmerge. }
  rewrite Hconfig in Hmerge.
  pose proof Hmerge as Hlayers. rewrite mergeOptions_layers, !merge_obj in Hlayers.
  injection Hlayers as <-.
  eexists babel, vue, hook, config, _. split_and!; try done.
  - intros key. rewrite !get_mergeKeys. unfold get at 1. rewrite lookup_empty. cbn [default].
    by rewrite over_undefined_l.
  - destruct (truthy hook); destruct Hio as [Hio _]; [|done].
    cbn in Hio. by simplify_eq.
  - by destruct (truthy hook); destruct Hio as [_ ->].
Qed.

Lemma elem_of_warnings (trace : list event) (message : string) :
  EvWarn message ∈ trace <-> message ∈ warnings trace.
Proof.
  unfold warnings. rewrite list_elem_of_omap. split.
  - intros H. by exists (EvWarn message).
  - intros (ev & Hev & Hmsg). destruct ev; simplify_eq. done.
Qed.

(** C1, amended.  Key by key, the inline options [setup] hands on are the
    project configuration laid over the defaults and the explicit options
    laid over both, where laying a value over a lower one keeps the lower
    one when the value is undefined, merges the two in the same way key by
    key when both are option objects, and replaces the lower one
    otherwise.  So a key holds the explicit value when that is defined,
    else the project configuration's, else the default, whenever that
    value is not an option object.  The key [configureWebpack] is left
    aside when the legacy hook takes it. *)
Theorem merged_layers (E : environment) (options : obj) (trace : list event)
    (projectRoot : jsval) (browserOptions : obj) (inlineOptions : jsval) :
  setup E options = (trace, Normal (projectRoot, browserOptions, inlineOptions)) ->
  exists babelConfig vueConfig hook (config merged : obj),
    getBabelConfig E projectRoot = Normal babelConfig
    /\ resolveVueConfig E projectRoot = Normal vueConfig
    /\ resolveConfigureWebpack E projectRoot = Normal hook
    /\ js_or vueConfig (VObj ∅) = VObj config
    /\ inlineOptions = VObj merged
    /\ (forall key,
          (key = "configureWebpack" -> truthy hook = false) ->
          let d := get defaults key in
          let c := get config key in
          let e := get (explicitOptions options browserOptions babelConfig (VObj config)) key in
          get merged key = over (over d c) e
          /\ (isOptionObject (precedence d c e) = false -> get merged key = precedence d c e))
    /\ (forall lower value,
          (is_undefined value = true -> over lower value = lower)
          /\ (is_undefined value = false ->
              isOptionObject value && isOptionObject lower = false ->
              over lower value = value))
    /\ (forall lower value : obj,
          exists both,
            over (VObj lower) (VObj value) = VObj both
            /\ forall key, get both key = over (get lower key) (get value key)).
Proof.
  intros H. apply setup_merged in H
    as (babel & vue & hook & config & merged & Hbabel & Hvue & Hhook & Hconfig & _
        & Hget & -> & _).
  exists babel, vue, hook, config,
    (if truthy hook then <["configureWebpack" := hook]> merged else merged).
  split; [exact Hbabel|]. split; [exact Hvue|]. split; [exact Hhook|].
  split; [exact Hconfig|]. split; [reflexivity|]. split; [|split].
  - intros key Hkey d c e.
    assert (get (if truthy hook then <["configureWebpack" := hook]> merged else merged) key
            = over (over d c) e) as Hmerged.
    { subst d c e. rewrite <- Hget. destruct (truthy hook); [|reflexivity].
      unfold get. rewrite lookup_insert_ne; [reflexivity|].
      intros <-. discriminate (Hkey eq_refl). }
    split; [exact Hmerged|]. intros Hplain. rewrite Hmerged. exact (over_precedence _ _ _ Hplain).
  - intros lower value. split.
    + intros Hundef. unfold over. rewrite Hundef. reflexivity.
    + apply over_replace.
  - apply over_objects.
Qed.

Lemma merged_layers_witness :
  exists trace projectRoot browserOptions inlineOptions,
    setup sampleProject sampleOptions
    = (trace, Normal (projectRoot, browserOptions, inlineOptions))
    /\ exists merged : obj,
         inlineOptions = VObj merged
         /\ get merged "transpileDependencies" = VArr [].
Proof.
  destruct (setup sampleProject sampleOptions)
    as [trace [[[projectRoot browserOptions] inlineOptions]|e]] eqn:Hsetup;
    [|discriminate Hsetup].
  exists trace, projectRoot, browserOptions, inlineOptions. split; [reflexivity|].
  destruct (merged_layers _ _ _ _ _ _ Hsetup)
    as (babel & vue & hook & config & merged & Hbabel & Hvue & Hhook & Hconfig & Hio
        & Hkeys & _).
  exists merged. split; [exact Hio|].
  injection Hvue as <-. injection Hconfig as <-.
  destruct (Hkeys "transpileDependencies" (fun H => ltac:(discriminate H))) as [_ Hheld].
  exact (Hheld eq_refl).
Defined.

(** Two runs of [setup] in which the inline options hold, under [css],
    neither the explicit value, nor the project configuration's, nor the
    default, but these merged.  In the first the project configuration
    sets [css] to [{ extract: true }] and no explicit css is given; in the
    second the explicit css is [{ extract: true }]. *)
Lemma css_layers_merged :
  (get (browserOptions_of (setup cssProject (<["css" := VUndef]> plainOptions))) "css" = VUndef
   /\ precedence (get defaults "css") (get cssConfig "css") VUndef
      = VObj {[ "extract" := VBool true ]}
   /\ get_optional (inlineOptions_of (setup cssProject (<["css" := VUndef]> plainOptions)))
        "css"
      = sampleCss)
  /\ (get (browserOptions_of (setup sampleProject sampleOptions)) "css"
      = VObj {[ "extract" := VBool true ]}
      /\ get_optional (inlineOptions_of (setup sampleProject sampleOptions)) "css"
         = sampleCss)
  /\ sampleCss <> VObj {[ "extract" := VBool true ]}.
Proof.
  split; [|split].
  - split; [|split]; vm_compute; reflexivity.
  - split; vm_compute; reflexivity.
  - intros H. apply (f_equal (fun v => get_optional v "sourceMap")) in H. discriminate H.
Qed.

(** ** The css option, from the check to the inline options *)

(** The css of the inline options: the defaults, the project
    configuration's css and the css of the validated browser options,
    laid over one another. *)
Lemma setup_css (E : environment) (options : obj) (trace : list event)
    (projectRoot : jsval) (browserOptions : obj) (inlineOptions : jsval) :
  setup E options = (trace, Normal (projectRoot, browserOptions, inlineOptions)) ->
  exists vueConfig (config : obj),
    resolveVueConfig E projectRoot = Normal vueConfig
    /\ js_or vueConfig (VObj ∅) = VObj config
    /\ get_optional inlineOptions "css"
       = over (over (get defaults "css") (get config "css")) (get browserOptions "css").
Proof.
  intros H. apply setup_merged in H
    as (babel & vue & hook & config & merged & _ & Hvue & _ & Hconfig & _ & Hget & -> & _).
  exists vue, config. split; [exact Hvue|]. split; [exact Hconfig|].
  cbn [get_optional]. transitivity (get merged "css"); [|apply Hget].
  destruct (truthy hook); [|reflexivity].
  unfold get. rewrite lookup_insert_ne; [reflexivity|discriminate].
Qed.

(** C2.  When the three scalar css sub-options are undefined and
    [loaderOptions] is an empty object, [options.css] is set to undefined
    and is not among the overrides: [validateOptions] is applied to an
    object with the css of the browser target untouched.  When a
    sub-option is set, [options.css] stays as given and is the css of the
    object [validateOptions] is applied to.  In both cases a rejection of
    [validateOptions] on that object is the error of the stream, and the
    browser options [setup] goes on with are its answer.  The css of the
    inline options is then the defaults with the project configuration's
    css and the css of these browser options laid over them: the
    dev-server css has no other way in. *)
Theorem css_left_unset (E : environment) (options css raw : obj) (target name : jsval) :
  get options "css" = VObj css ->
  targetFromTargetString E (get options "browserTarget") = Normal target ->
  getTargetOptions E target = Resolved raw ->
  getBuilderNameForTarget E target = Resolved name ->
  (is_undefined (get css "requireModuleExtension") = true ->
   is_undefined (get css "extract") = true ->
   is_undefined (get css "sourceMap") = true ->
   get css "loaderOptions" = VObj ∅ ->
   normalizeCss options = ([], Normal (<["css" := VUndef]> options))
   /\ exists input,
        input !! "css" = raw !! "css"
        /\ head (runBuilder E options).1 = Some (EvValidate input name)
        /\ (forall e,
              validateOptions E input name = Rejected e ->
              runBuilder E options
              = ([EvValidate input name], Normal (Rx.Stream [] (Rx.Errored e))))
        /\ (forall trace projectRoot browserOptions inlineOptions,
              setup E (<["css" := VUndef]> options)
              = (trace, Normal (projectRoot, browserOptions, inlineOptions)) ->
              validateOptions E input name = Resolved browserOptions))
  /\ (is_undefined (get css "requireModuleExtension") = false
      \/ is_undefined (get css "extract") = false
      \/ is_undefined (get css "sourceMap") = false
      \/ (exists loaderOptions,
            get css "loaderOptions" = VObj loaderOptions /\ loaderOptions <> ∅) ->
      normalizeCss options = ([], Normal options)
      /\ exists input,
           input !! "css" = Some (VObj css)
           /\ head (runBuilder E options).1 = Some (EvValidate input name)
           /\ (forall e,
                 validateOptions E input name = Rejected e ->
                 runBuilder E options
                 = ([EvValidate input name], Normal (Rx.Stream [] (Rx.Errored e))))
           /\ (forall trace projectRoot browserOptions inlineOptions,
                 setup E options
                 = (trace, Normal (projectRoot, browserOptions, inlineOptions)) ->
                 validateOptions E input name = Resolved browserOptions))
  /\ (forall options' trace projectRoot browserOptions inlineOptions,
        setup E options' = (trace, Normal (projectRoot, browserOptions, inlineOptions)) ->
        exists vueConfig (config : obj),
          resolveVueConfig E projectRoot = Normal vueConfig
          /\ js_or vueConfig (VObj ∅) = VObj config
          /\ get_optional inlineOptions "css"
             = over (over (get defaults "css") (get config "css"))
                    (get browserOptions "css")).
Proof.
  intros Hcss Htarget Hraw Hname. split; [|split].
  - intros Hrme Hextract HsourceMap Hloader.
    pose proof (normalizeCss_unset _ _ Hcss Hrme Hextract HsourceMap Hloader) as Hunset.
    split; [exact Hunset|].
    destruct (runBuilder_validation E options _ raw target name Hunset Htarget Hraw Hname)
      as (Hhead & Hrejected & Hresolved).
    exists (spread raw (overrides (<["css" := VUndef]> options))).
    split; [|split; [exact Hhead|split; [exact Hrejected|exact Hresolved]]].
    rewrite lookup_spread_overrides. apply decide_False. intros [_ Hdef].
    unfold get in Hdef. by rewrite lookup_insert_eq in Hdef.
  - intros Hset. pose proof (normalizeCss_set _ _ Hcss Hset) as Hkept.
    split; [exact Hkept|].
    destruct (runBuilder_validation E options _ raw target name Hkept Htarget Hraw Hname)
      as (Hhead & Hrejected & Hresolved).
    exists (spread raw (overrides options)).
    split; [|split; [exact Hhead|split; [exact Hrejected|exact Hresolved]]].
    rewrite lookup_spread_overrides, Hcss. apply decide_True. split; [|reflexivity].
    do 3 apply list_elem_of_further. apply list_elem_of_here.
  - intros options' trace root bo io Hsetup. exact (setup_css _ _ _ _ _ _ Hsetup).
Qed.

Lemma css_left_unset_witness :
  normalizeCss plainOptions = ([], Normal (<["css" := VUndef]> plainOptions))
  /\ (exists input,
        input !! "css"
        = ({[ "mode" := VStr "development"; "dest" := VStr "dist/apps/demo" ]} : obj) !! "css"
        /\ head (runBuilder sampleProject plainOptions).1
           = Some (EvValidate input (VStr "@nx-plus/vue:browser")))
  /\ exists trace projectRoot browserOptions inlineOptions,
       setup sampleProject (<["css" := VUndef]> plainOptions)
       = (trace, Normal (projectRoot, browserOptions, inlineOptions))
       /\ get_optional inlineOptions "css" = get defaults "css".
Proof.
  destruct (css_left_unset sampleProject plainOptions {[ "loaderOptions" := VObj ∅ ]}
              {[ "mode" := VStr "development"; "dest" := VStr "dist/apps/demo" ]}
              (VStr "demo:build") (VStr "@nx-plus/vue:browser")
              eq_refl eq_refl eq_refl eq_refl)
    as (Hunset & _ & Hinline).
  destruct (Hunset eq_refl eq_refl eq_refl eq_refl) as (Hcss & input & Hinput & Hhead & _).
  split; [exact Hcss|]. split; [exists input; split; [exact Hinput|exact Hhead]|].
  destruct (setup sampleProject (<["css" := VUndef]> plainOptions))
    as [trace [[[projectRoot browserOptions] inlineOptions]|e]] eqn:Hsetup;
    [|discriminate Hsetup].
  exists trace, projectRoot, browserOptions, inlineOptions. split; [reflexivity|].
  destruct (Hinline _ _ _ _ _ Hsetup) as (vue & config & Hvue & Hconfig & ->).
  injection Hvue as <-. injection Hconfig as <-.
  change browserOptions
    with (browserOptions_of (trace, Normal (projectRoot, browserOptions, inlineOptions))).
  rewrite <- Hsetup. vm_compute. reflexivity.
Defined.

(** ** The legacy hook *)

(** A warning of [setup] is the deprecation warning, and is given for a
    legacy hook that was found. *)
Lemma setup_warn (E : environment) (options : obj) (message : string) :
  EvWarn message ∈ (setup E options).1 ->
  message = deprecation
  /\ exists projectRoot hook,
       getProjectRoot E = Resolved projectRoot
       /\ resolveConfigureWebpack E projectRoot = Normal hook
       /\ truthy hook = true.
Proof.
  unfold setup. step_effects; cbn.
  all: try (intros H; by apply elem_of_nil in H).
  all: try (intros [H|H]%elem_of_cons; [discriminate H|by apply elem_of_nil in H]).
  match goal with
  | _ : resolveConfigureWebpack _ _ = Normal ?cw |- _ => destruct (truthy cw) eqn:Hcw
  end; cbn.
  - intros [H|H]%elem_of_cons; [discriminate H|].
    assert (message = deprecation) as ->; [|by eauto 10].
    destruct (set_prop _ _ _); cbn in H;
      apply list_elem_of_singleton in H; by injection H.
  - intros [H|H]%elem_of_cons; [discriminate H|by apply elem_of_nil in H].
Qed.

Lemma runBuilder_warn (E : environment) (options : obj) (message : string) :
  EvWarn message ∈ (runBuilder E options).1 ->
  exists options', EvWarn message ∈ (setup E options').1.
Proof.
  intros Hev.
  destruct (runBuilder_cases E options)
    as [[H _]|(options' & _ & [(e & _ & H)|(t & root & bo & io & Ht & H)])].
  - rewrite H in Hev. by apply elem_of_nil in Hev.
  - rewrite H in Hev. by exists options'.
  - exists options'. rewrite Ht. cbn [fst].
    destruct H as [[e H]|[(pkg & e & H)|(pkg & run & args' & _ & H)]];
      rewrite H in Hev; cbn [fst] in Hev; [exact Hev|..];
      apply elem_of_app in Hev as [Hev|Hev]; try exact Hev;
      repeat (apply elem_of_cons in Hev as [Hev|Hev]; [discriminate Hev|]);
      by apply elem_of_nil in Hev.
Qed.

Lemma runBuilder_warnings (E : environment) (options : obj) :
  warnings (runBuilder E options).1 = []
  \/ warnings (runBuilder E options).1 = [deprecation].
Proof.
  destruct (runBuilder_cases E options)
    as [[H _]|(options' & _ & [(e & _ & H)|(t & root & bo & io & Ht & H)])].
  - rewrite H. by left.
  - rewrite H. apply setup_warnings.
  - pose proof (setup_warnings E options') as Hsetup. rewrite Ht in Hsetup.
    cbn [fst] in Hsetup.
    destruct H as [[e H]|[(pkg & e & H)|(pkg & run & args' & _ & H)]];
      rewrite H; cbn [fst]; [exact Hsetup|..];
      unfold warnings in *; rewrite omap_app; cbn [omap]; rewrite app_nil_r; exact Hsetup.
Qed.

(** C4, amended.  An invocation warns at most once, and only of the
    legacy hook that [resolveConfigureWebpack] found.  When [setup] gets
    as far as looking for the hook (the browser options validated, the
    project root, the Babel and the project configuration resolved, the
    latter being falsy or an option object), it succeeds whatever the
    hook is: it has given the deprecation warning exactly if the hook is
    truthy, and the inline options are then the merged options with the
    hook under [configureWebpack]; without a hook they are the merged
    options as they are. *)
Theorem legacy_hook_warning (E : environment) (options : obj) :
  (length (warnings (runBuilder E options).1) <= 1)%nat
  /\ (forall message,
        EvWarn message ∈ (runBuilder E options).1 ->
        message = deprecation
        /\ exists projectRoot hook,
             getProjectRoot E = Resolved projectRoot
             /\ resolveConfigureWebpack E projectRoot = Normal hook
             /\ truthy hook = true)
  /\ forall (raw browserOptions : obj) target name projectRoot babelConfig vueConfig hook,
       targetFromTargetString E (get options "browserTarget") = Normal target ->
       getTargetOptions E target = Resolved raw ->
       getBuilderNameForTarget E target = Resolved name ->
       validateOptions E (spread raw (overrides options)) name = Resolved browserOptions ->
       getProjectRoot E = Resolved projectRoot ->
       getBabelConfig E projectRoot = Normal babelConfig ->
       resolveVueConfig E projectRoot = Normal vueConfig ->
       isOptionObject (js_or vueConfig (VObj ∅)) = true ->
       resolveConfigureWebpack E projectRoot = Normal hook ->
       exists merged : obj,
         MergeOptions.mergeOptions true
           [VObj defaults; js_or vueConfig (VObj ∅);
            VObj (explicitOptions options browserOptions babelConfig
                    (js_or vueConfig (VObj ∅)))]
         = Normal (VObj merged)
         /\ setup E options
            = (EvValidate (spread raw (overrides options)) name
                 :: (if truthy hook then [EvWarn deprecation] else []),
               Normal (projectRoot, browserOptions,
                       VObj (if truthy hook
                             then <["configureWebpack" := hook]> merged
                             else merged)))
         /\ (EvWarn deprecation ∈ (setup E options).1 <-> truthy hook = true).
Proof.
  split; [|split].
  - destruct (runBuilder_warnings E options) as [-> | ->]; cbn; lia.
  - intros message [options' Hev]%runBuilder_warn. exact (setup_warn _ _ _ Hev).
  - intros raw bo target name root babel vue hook
      Htarget Hraw Hname Hvalid Hroot Hbabel Hvue Hconfig Hhook.
    destruct (js_or vue (VObj ∅)) as [| | | | | |config| | |] eqn:Hvalue;
      try discriminate Hconfig.
    pose proof (mergeOptions_layers true defaults config
                  (explicitOptions options bo babel (VObj config))) as Hmerge.
    rewrite !merge_obj in Hmerge.
    eexists. split; [exact Hmerge|].
    match type of Hmerge with _ = Normal (VObj ?m) => set (merged := m) in * end.
    assert (setup E options
            = (EvValidate (spread raw (overrides options)) name
                 :: (if truthy hook then [EvWarn deprecation] else []),
               Normal (root, bo,
                       VObj (if truthy hook
                             then <["configureWebpack" := hook]> merged
                             else merged)))) as Hsetup.
    { unfold setup.
      rewrite Htarget, bind_lift_Normal, Hraw, await_Resolved, bind_lift_Normal.
      rewrite Hname, await_Resolved, bind_lift_Normal, bind_emit.
      rewrite Hvalid, await_Resolved, bind_lift_Normal.
      rewrite Hroot, await_Resolved, bind_lift_Normal.
      rewrite Hbabel, bind_lift_Normal, Hvue, bind_lift_Normal.
      rewrite Hvalue, Hmerge, bind_lift_Normal, Hhook, bind_lift_Normal.
      destruct (truthy hook); reflexivity. }
    split; [exact Hsetup|]. rewrite Hsetup. cbn [fst].
    destruct (truthy hook).
    + split; [reflexivity|]. intros _. apply list_elem_of_further, list_elem_of_here.
    + split; [|discriminate]. intros Hin.
      apply elem_of_cons in Hin as [Hin|Hin]; [discriminate Hin|].
      by apply elem_of_nil in Hin.
Qed.

Lemma legacy_hook_warning_witness :
  exists merged : obj,
    MergeOptions.mergeOptions true
      [VObj defaults; VObj sampleConfig;
       VObj (explicitOptions sampleOptions sampleInput VUndef (VObj sampleConfig))]
    = Normal (VObj merged)
    /\ setup legacyProject sampleOptions
       = ([sampleValidation; EvWarn deprecation],
          Normal (VStr "apps/demo", sampleInput,
                  VObj (<["configureWebpack" := VFun "configure-webpack.js"]> merged)))
    /\ (EvWarn deprecation ∈ (setup legacyProject sampleOptions).1
        <-> truthy (VFun "configure-webpack.js") = true).
Proof.
  exact (proj2 (proj2 (legacy_hook_warning legacyProject sampleOptions))
           {[ "mode" := VStr "development"; "dest" := VStr "dist/apps/demo" ]}
           sampleInput (VStr "demo:build") (VStr "@nx-plus/vue:browser")
           (VStr "apps/demo") VUndef (VObj sampleConfig) (VFun "configure-webpack.js")
           eq_refl eq_refl eq_refl eq_refl eq_refl eq_refl eq_refl eq_refl eq_refl).
Defined.

(** The legacy hook is there and no warning is given: validation has
    rejected the browser options before [setup] looked for the hook. *)
Lemma legacy_hook_unannounced :
  resolveConfigureWebpack invalidLegacyProject (VStr "apps/demo")
  = Normal (VFun "configure-webpack.js")
  /\ truthy (VFun "configure-webpack.js") = true
  /\ runBuilder invalidLegacyProject sampleOptions
     = ([sampleValidation],
        Normal (Rx.Stream [] (Rx.Errored (VError "SchemaValidationException"))))
  /\ warnings (runBuilder invalidLegacyProject sampleOptions).1 = [].
Proof.
  split; [reflexivity|]. split; [reflexivity|]. split; vm_compute; reflexivity.
Qed.

(** ** The chainWebpack wrapper *)

(** C10.  After a successful [setup] the inline options hold, under
    [chainWebpack], the wrapper of builder.ts:103-127 closed over the
    browser options, the Babel configuration, the dev-server options and
    the project configuration.  Called, the wrapper makes its own
    modifications and then, when the project configuration has a
    [chainWebpack] function, calls it once, as the last step; a
    [chainWebpack] that is not set is not called. *)
Theorem chainWebpack_wrapper (E : environment) (options : obj) (trace : list event)
    (projectRoot : jsval) (browserOptions : obj) (inlineOptions : jsval) :
  setup E options = (trace, Normal (projectRoot, browserOptions, inlineOptions)) ->
  exists babelConfig vueConfig (config : obj),
    getBabelConfig E projectRoot = Normal babelConfig
    /\ resolveVueConfig E projectRoot = Normal vueConfig
    /\ js_or vueConfig (VObj ∅) = VObj config
    /\ let wrapper :=
         VChainWebpack (VObj browserOptions) babelConfig (VObj options) (VObj config) in
       let own :=
         [modifyIndexHtmlPath (VObj browserOptions);
          modifyEntryPoint (VObj browserOptions);
          modifyTsConfigPaths (VObj browserOptions);
          modifyCachePaths;
          modifyTypescriptAliases (VObj browserOptions)]
         ++ (if truthy babelConfig then [modifyBabelLoader babelConfig] else [])
         ++ (if truthy (get options "watch") then [] else [watchFileSystem]) in
       let hook := get config "chainWebpack" in
       get_prop inlineOptions "chainWebpack" = Normal wrapper
       /\ (forall f, callHook f ∉ own)
       /\ (is_callable hook = true -> call wrapper = (own ++ [callHook hook], Normal tt))
       /\ (truthy hook = false -> call wrapper = (own, Normal tt)).
Proof.
  intros H. apply setup_merged in H
    as (babel & vue & hook & config & merged & Hbabel & Hvue & _ & Hconfig & _
        & Hget & -> & _).
  exists babel, vue, config.
  split; [exact Hbabel|]. split; [exact Hvue|]. split; [exact Hconfig|].
  intros wrapper own chain. split; [|split; [|split]].
  - cbn [get_prop]. f_equal.
    transitivity (get merged "chainWebpack").
    { destruct (truthy hook); [|reflexivity].
      unfold get. rewrite lookup_insert_ne; [reflexivity|discriminate]. }
    rewrite Hget.
    change (get (explicitOptions options browserOptions babel (VObj config)) "chainWebpack")
      with wrapper.
    apply over_replace; reflexivity.
  - intros f Hin. subst own.
    repeat (apply elem_of_cons in Hin as [Hin|Hin]; [discriminate Hin|]).
    apply elem_of_app in Hin as [Hin|Hin].
    + destruct (truthy babel).
      * apply elem_of_cons in Hin as [Hin|Hin]; [discriminate Hin|].
        apply elem_of_nil in Hin. destruct Hin.
      * apply elem_of_nil in Hin. destruct Hin.
    + destruct (truthy (get options "watch")).
      * apply elem_of_nil in Hin. destruct Hin.
      * apply elem_of_cons in Hin as [Hin|Hin]; [discriminate Hin|].
        apply elem_of_nil in Hin. destruct Hin.
  - subst wrapper own chain. unfold call, chainWebpack. cbn [get_prop].
    generalize (get config "chainWebpack"), (get options "watch"), (truthy babel).
    intros chain watch withBabel Hcall.
    destruct chain; try discriminate Hcall; destruct withBabel; cbn;
      destruct (truthy watch); reflexivity.
  - subst wrapper own chain. unfold call, chainWebpack. cbn [get_prop].
    generalize (get config "chainWebpack"), (get options "watch"), (truthy babel).
    intros chain watch withBabel Hunset.
    destruct withBabel; cbn; destruct (truthy watch); cbn; rewrite Hunset; reflexivity.
Qed.

Lemma chainWebpack_wrapper_witness :
  exists trace projectRoot browserOptions inlineOptions,
    setup sampleProject sampleOptions
    = (trace, Normal (projectRoot, browserOptions, inlineOptions))
    /\ get_prop inlineOptions "chainWebpack"
       = Normal (VChainWebpack (VObj browserOptions) VUndef (VObj sampleOptions)
                   (VObj sampleConfig))
    /\ call (VChainWebpack (VObj browserOptions) VUndef (VObj sampleOptions) (VObj sampleConfig))
       = ([modifyIndexHtmlPath (VObj browserOptions);
           modifyEntryPoint (VObj browserOptions);
           modifyTsConfigPaths (VObj browserOptions);
           modifyCachePaths;
           modifyTypescriptAliases (VObj browserOptions);
           callHook (VFun "vue-nx.config.js:chainWebpack")],
          Normal tt).
Proof.
  destruct (setup sampleProject sampleOptions)
    as [trace [[[projectRoot browserOptions] inlineOptions]|e]] eqn:Hsetup;
    [|discriminate Hsetup].
  exists trace, projectRoot, browserOptions, inlineOptions. split; [reflexivity|].
  destruct (chainWebpack_wrapper _ _ _ _ _ _ Hsetup)
    as (babel & vue & config & Hbabel & Hvue & Hconfig & Hheld & _ & Hcall & _).
  injection Hvue as <-. injection Hconfig as <-. injection Hbabel as <-.
  split; [exact Hheld|]. exact (Hcall eq_refl).
Defined.

(** ** When the css check throws *)

Lemma normalizeCss_Throw (options : obj) (trace : list event) (e : jsval) :
  normalizeCss options = (trace, Throw e) ->
  is_nullish (get options "css") = true
  \/ (is_undefined (get_optional (get options "css") "requireModuleExtension") = true
      /\ is_undefined (get_optional (get options "css") "extract") = true
      /\ is_undefined (get_optional (get options "css") "sourceMap") = true
      /\ is_nullish (get_optional (get options "css") "loaderOptions") = true).
Proof.
  unfold normalizeCss. intros H.
  destruct (get options "css") as [| | | | | |css| | |]; cbn [get_prop] in H;
    rewrite ?bind_lift_Normal in H; cbn [is_undefined is_nullish get_optional] in *; auto.
  destruct (is_undefined (get css "requireModuleExtension")); [|discriminate H].
  rewrite ?bind_lift_Normal in H.
  destruct (is_undefined (get css "extract")); [|discriminate H].
  rewrite ?bind_lift_Normal in H.
  destruct (is_undefined (get css "sourceMap")); [|discriminate H].
  rewrite ?bind_lift_Normal in H.
  destruct (get css "loaderOptions"); cbn [Object_keys] in H;
    rewrite ?bind_lift_Normal in H; try (case_bool_decide; discriminate H); auto.
Qed.

(** X1.  The css check of builder.ts:53-60 throws exactly when
    [options.css] is undefined or null, or none of the three scalar
    sub-options can be read from it as defined (which is so for every
    [css] that is not an object) and [loaderOptions] is undefined or
    null.  What it throws is a TypeError, and [runBuilder] throws it
    before any collaborator is called. *)
Theorem css_check_throws (options : obj) :
  (forall trace e,
     normalizeCss options = (trace, Throw e) ->
     trace = [] /\ e = TypeError
     /\ (is_nullish (get options "css") = true
         \/ (is_undefined (get_optional (get options "css") "requireModuleExtension") = true
             /\ is_undefined (get_optional (get options "css") "extract") = true
             /\ is_undefined (get_optional (get options "css") "sourceMap") = true
             /\ is_nullish (get_optional (get options "css") "loaderOptions") = true)))
  /\ (is_nullish (get options "css") = true
      \/ (is_undefined (get_optional (get options "css") "requireModuleExtension") = true
          /\ is_undefined (get_optional (get options "css") "extract") = true
          /\ is_undefined (get_optional (get options "css") "sourceMap") = true
          /\ is_nullish (get_optional (get options "css") "loaderOptions") = true) ->
      normalizeCss options = ([], Throw TypeError)
      /\ forall E, runBuilder E options = ([], Throw TypeError)).
Proof.
  split.
  - intros trace e Hthrown.
    destruct (normalizeCss_cases options) as [H|[H|H]];
      rewrite H in Hthrown; try discriminate Hthrown.
    injection Hthrown as <- <-. split; [reflexivity|]. split; [reflexivity|].
    exact (normalizeCss_Throw _ _ _ H).
  - intros Hcond.
    assert (normalizeCss options = ([], Throw TypeError)) as Hthrown.
    { unfold normalizeCss.
      destruct (get options "css") as [| | | | | |css| | |];
        cbn [get_prop get_optional is_nullish is_undefined] in *;
        try reflexivity;
        try (destruct Hcond as [Hcond|_]; [discriminate Hcond|reflexivity]).
      destruct Hcond as [Hcond|(Hrme & Hextract & HsourceMap & Hloader)];
        [discriminate Hcond|].
      rewrite !bind_lift_Normal, Hrme, Hextract, HsourceMap.
      by destruct (get css "loaderOptions"). }
    split; [exact Hthrown|]. intros E. unfold runBuilder. by rewrite Hthrown.
Qed.

Lemma css_check_throws_witness :
  normalizeCss (<["css" := VBool true]> sampleOptions) = ([], Throw TypeError)
  /\ forall E, runBuilder E (<["css" := VBool true]> sampleOptions) = ([], Throw TypeError).
Proof.
  refine (proj2 (css_check_throws (<["css" := VBool true]> sampleOptions)) _).
  right. split; [reflexivity|]. split; [reflexivity|]. split; reflexivity.
Defined.

(** ** Failures before the service is run *)

(** X2.  When [setup] fails, whichever collaborator made it fail, its
    exception is the error of the result stream: nothing is delivered, no
    service is constructed and [service.run] is not called. *)
Theorem setup_failure_forwarded (E : environment) (options options' : obj) (e : jsval) :
  normalizeCss options = ([], Normal options') ->
  (setup E options').2 = Throw e ->
  runBuilder E options = ((setup E options').1, Normal (Rx.Stream [] (Rx.Errored e)))
  /\ forall ev, ev ∈ (runBuilder E options).1 -> (phase ev <= 1)%nat.
Proof.
  intros Hcss Hsetup.
  assert (runBuilder E options
          = ((setup E options').1, Normal (Rx.Stream [] (Rx.Errored e)))) as Hrun.
  { rewrite (runBuilder_unfold E options options' Hcss). by rewrite Hsetup. }
  split; [exact Hrun|]. rewrite Hrun. cbn [fst]. intros ev Hev.
  apply setup_events in Hev as [(? & ? & ? & _ & _ & _ & ->)| ->]; cbn; lia.
Qed.

Lemma setup_failure_forwarded_witness :
  normalizeCss sampleOptions = ([], Normal sampleOptions)
  /\ (setup invalidProject sampleOptions).2 = Throw (VError "SchemaValidationException")
  /\ runBuilder invalidProject sampleOptions
     = ((setup invalidProject sampleOptions).1,
        Normal (Rx.Stream [] (Rx.Errored (VError "SchemaValidationException")))).
Proof.
  assert (normalizeCss sampleOptions = ([], Normal sampleOptions)) as Hcss by reflexivity.
  assert ((setup invalidProject sampleOptions).2 = Throw (VError "SchemaValidationException"))
    as Hsetup by reflexivity.
  split; [exact Hcss|]. split; [exact Hsetup|].
  exact (proj1 (setup_failure_forwarded invalidProject _ _ _ Hcss Hsetup)).
Defined.

(** X3.  A project configuration that is truthy and not an option object
    (a function, an array, a string) makes [setup] fail with the TypeError
    of [merge-options], after validation has been asked for: no warning is
    given and [resolveConfigureWebpack] has no say. *)
Theorem invalid_config_rejected (E : environment) (options raw browserOptions : obj)
    (target name projectRoot babelConfig vueConfig : jsval) :
  targetFromTargetString E (get options "browserTarget") = Normal target ->
  getTargetOptions E target = Resolved raw ->
  getBuilderNameForTarget E target = Resolved name ->
  validateOptions E (spread raw (overrides options)) name = Resolved browserOptions ->
  getProjectRoot E = Resolved projectRoot ->
  getBabelConfig E projectRoot = Normal babelConfig ->
  resolveVueConfig E projectRoot = Normal vueConfig ->
  truthy vueConfig = true ->
  isOptionObject vueConfig = false ->
  setup E options = ([EvValidate (spread raw (overrides options)) name], Throw TypeError).
Proof.
  intros Htarget Hraw Hname Hvalid Hroot Hbabel Hvue Htruthy Hplain. unfold setup.
  rewrite Htarget, bind_lift_Normal, Hraw, await_Resolved, bind_lift_Normal.
  rewrite Hname, await_Resolved, bind_lift_Normal, bind_emit.
  rewrite Hvalid, await_Resolved, bind_lift_Normal.
  rewrite Hroot, await_Resolved, bind_lift_Normal.
  rewrite Hbabel, bind_lift_Normal, Hvue, bind_lift_Normal.
  unfold js_or. rewrite Htruthy.
  assert (forall e, MergeOptions.mergeOptions true [VObj defaults; vueConfig; VObj e]
                    = Throw TypeError) as ->; [|reflexivity].
  intros e. unfold MergeOptions.mergeOptions, MergeOptions.mergeOption.
  cbn [foldl is_undefined isOptionObject]. rewrite Hplain.
  by destruct vueConfig.
Qed.

Lemma invalid_config_rejected_witness :
  setup functionConfigProject sampleOptions = ([sampleValidation], Throw TypeError).
Proof.
  exact (invalid_config_rejected functionConfigProject sampleOptions
           {[ "mode" := VStr "development"; "dest" := VStr "dist/apps/demo" ]}
           (spread {[ "mode" := VStr "development"; "dest" := VStr "dist/apps/demo" ]}
              (overrides sampleOptions))
           (VStr "demo:build") (VStr "@nx-plus/vue:browser") (VStr "apps/demo") VUndef
           (VFun "vue-nx.config.js")
           eq_refl eq_refl eq_refl eq_refl eq_refl eq_refl eq_refl eq_refl eq_refl).
Defined.

(** X4.  After a successful [setup], an exception thrown before the
    service exists ends the stream with that exception, and
    [service.run] is not called: when [checkUnsupportedConfig] or
    [resolvePkg] throws, no service is constructed either; when the
    constructor throws, its call is the last event. *)
Theorem service_not_run (E : environment) (options options' browserOptions : obj)
    (trace : list event) (projectRoot inlineOptions : jsval) :
  normalizeCss options = ([], Normal options') ->
  setup E options' = (trace, Normal (projectRoot, browserOptions, inlineOptions)) ->
  (forall e,
     checkUnsupportedConfig E projectRoot = Throw e ->
     runBuilder E options = (trace, Normal (Rx.Stream [] (Rx.Errored e))))
  /\ (forall e,
        checkUnsupportedConfig E projectRoot = Normal tt ->
        resolvePkg E (workspaceRoot E) = Throw e ->
        runBuilder E options = (trace, Normal (Rx.Stream [] (Rx.Errored e))))
  /\ (forall pkg e,
        checkUnsupportedConfig E projectRoot = Normal tt ->
        resolvePkg E (workspaceRoot E) = Normal pkg ->
        Service E (getSystemPath E projectRoot) pkg inlineOptions = Throw e ->
        runBuilder E options
        = (trace ++ [EvService (getSystemPath E projectRoot) pkg inlineOptions],
           Normal (Rx.Stream [] (Rx.Errored e)))).
Proof.
  intros Hcss Hsetup. rewrite (runBuilder_unfold E options options' Hcss), Hsetup.
  cbn [fst snd]. unfold serve. split; [|split].
  - intros e Hcheck. rewrite Hcheck, bind_lift_Throw. cbn [fst snd].
    by rewrite app_nil_r.
  - intros e Hcheck Hpkg. rewrite Hcheck, bind_lift_Normal, Hpkg, bind_lift_Throw.
    cbn [fst snd]. by rewrite app_nil_r.
  - intros pkg e Hcheck Hpkg Hservice.
    rewrite Hcheck, bind_lift_Normal, Hpkg, bind_lift_Normal, bind_emit, Hservice,
      bind_lift_Throw.
    reflexivity.
Qed.

Lemma service_not_run_witness :
  exists trace projectRoot browserOptions inlineOptions,
    setup unsupportedProject sampleOptions
    = (trace, Normal (projectRoot, browserOptions, inlineOptions))
    /\ runBuilder unsupportedProject sampleOptions
       = (trace, Normal (Rx.Stream [] (Rx.Errored (VError "Error")))).
Proof.
  destruct (setup unsupportedProject sampleOptions)
    as [trace [[[projectRoot browserOptions] inlineOptions]|e]] eqn:Hsetup;
    [|discriminate Hsetup].
  exists trace, projectRoot, browserOptions, inlineOptions. split; [reflexivity|].
  exact (proj1 (service_not_run unsupportedProject sampleOptions sampleOptions _ _ _ _
                  eq_refl Hsetup) _ eq_refl).
Defined.

(** ** What the stream delivers *)

(** X5.  When the promise of [service.run] resolves with [undefined] or
    [null], the stream delivers nothing and ends with a TypeError: the
    function given to [map] cannot take [url] from it. *)
Theorem nullish_result_error (E : environment) (options : obj) (trace : list event)
    (result : completion (Rx.stream jsval)) (name : string) (args : obj)
    (rawArgv : list string) (success : jsval) :
  runBuilder E options = (trace, result) ->
  EvRun name args rawArgv (Normal (Resolved success)) ∈ trace ->
  is_nullish success = true ->
  result = Normal (Rx.Stream [] (Rx.Errored TypeError)).
Proof.
  intros Hrun Hev Hnull.
  destruct (runBuilder_run _ _ _ _ _ _ _ _ Hrun Hev)
    as (options' & t & root & bo & io & pkg & _ & _ & _ & _ & _ & _ & ->).
  rewrite map_observed. by destruct success.
Qed.

Lemma nullish_result_error_witness :
  sampleCall voidService ∈ (runBuilder voidProject sampleOptions).1
  /\ (runBuilder voidProject sampleOptions).2
     = Normal (Rx.Stream [] (Rx.Errored TypeError)).
Proof.
  assert (sampleCall voidService ∈ (runBuilder voidProject sampleOptions).1) as Hev
    by (apply last_event; reflexivity).
  split; [exact Hev|].
  exact (nullish_result_error voidProject sampleOptions _ _ _ _ _ _
           (surjective_pairing _) Hev eq_refl).
Defined.



(** ** The css check, once more *)

(** X7.  The css check is not idempotent.  When it has changed the
    options, it has set [options.css] to undefined, and a second
    invocation with the options as they now are throws a TypeError before
    anything else happens. *)
Theorem css_check_once (E : environment) (options options' : obj) :
  normalizeCss options = ([], Normal options') ->
  options' <> options ->
  options' = <["css" := VUndef]> options
  /\ runBuilder E options' = ([], Throw TypeError).
Proof.
  intros Hcss Hchanged.
  destruct (normalizeCss_cases options) as [H|[H|H]]; rewrite H in Hcss; simplify_eq.
  split; [reflexivity|].
  unfold runBuilder, normalizeCss, get. by rewrite lookup_insert_eq.
Qed.

Lemma css_check_once_witness :
  normalizeCss plainOptions = ([], Normal (<["css" := VUndef]> plainOptions))
  /\ <["css" := VUndef]> plainOptions <> plainOptions
  /\ runBuilder sampleProject (<["css" := VUndef]> plainOptions) = ([], Throw TypeError).
Proof.
  assert (normalizeCss plainOptions = ([], Normal (<["css" := VUndef]> plainOptions))) as Hcss
    by reflexivity.
  assert (<["css" := VUndef]> plainOptions <> plainOptions) as Hchanged.
  { intros H. apply (f_equal (fun o : obj => get o "css")) in H. discriminate H. }
  split; [exact Hcss|]. split; [exact Hchanged|].
  exact (proj2 (css_check_once sampleProject _ _ Hcss Hchanged)).
Defined.

(** ** A hook that is not a function *)

(** X8.  When the project configuration's [chainWebpack] is truthy and
    not a function, the wrapper makes its own modifications and then
    throws a TypeError. *)
Theorem chainWebpack_bad_hook (browserOptions babelConfig : jsval) (options config : obj) :
  truthy (get config "chainWebpack") = true ->
  is_callable (get config "chainWebpack") = false ->
  call (VChainWebpack browserOptions babelConfig (VObj options) (VObj config))
  = ([modifyIndexHtmlPath browserOptions;
      modifyEntryPoint browserOptions;
      modifyTsConfigPaths browserOptions;
      modifyCachePaths;
      modifyTypescriptAliases browserOptions]
     ++ (if truthy babelConfig then [modifyBabelLoader babelConfig] else [])
     ++ (if truthy (get options "watch") then [] else [watchFileSystem]),
     Throw TypeError).
Proof.
  unfold call, chainWebpack. cbn [get_prop].
  generalize (get config "chainWebpack"), (get options "watch"), (truthy babelConfig).
  intros hook watch withBabel Htruthy Hcall.
  destruct withBabel; cbn; destruct (truthy watch); cbn; rewrite Htruthy, Hcall; reflexivity.
Qed.

Lemma chainWebpack_bad_hook_witness :
  call (VChainWebpack (VObj sampleInput) VUndef (VObj sampleOptions) (VObj flagConfig))
  = ([modifyIndexHtmlPath (VObj sampleInput);
      modifyEntryPoint (VObj sampleInput);
      modifyTsConfigPaths (VObj sampleInput);
      modifyCachePaths;
      modifyTypescriptAliases (VObj sampleInput)],
     Throw TypeError).
Proof.
  exact (chainWebpack_bad_hook (VObj sampleInput) VUndef sampleOptions flagConfig
           eq_refl eq_refl).
Defined.

(** ** The construction of the service *)

Lemma serve_service (E : environment) (options : obj) (resolved : jsval * obj * jsval)
    (path pkg inlineOptions : jsval) :
  EvService path pkg inlineOptions ∈ (serve E options resolved).1 ->
  checkUnsupportedConfig E resolved.1.1 = Normal tt
  /\ resolvePkg E (workspaceRoot E) = Normal pkg
  /\ path = getSystemPath E resolved.1.1
  /\ inlineOptions = resolved.2.
Proof.
  destruct resolved as [[root bo] io]. unfold serve. cbn [fst snd].
  destruct (checkUnsupportedConfig E root) as [[]|e];
    [rewrite bind_lift_Normal|by intros ?%elem_of_nil].
  destruct (resolvePkg E (workspaceRoot E)) as [pkg'|e];
    [rewrite bind_lift_Normal, bind_emit|by intros ?%elem_of_nil].
  cbn [fst]. intros [Hev|Hev]%elem_of_cons.
  - by simplify_eq.
  - exfalso. revert Hev.
    destruct (Service E (getSystemPath E root) pkg' io) as [run|e];
      [rewrite bind_lift_Normal|by intros ?%elem_of_nil].
    unfold Rx.Observable, subscribe. cbn [fst].
    destruct (serveArgs options bo io) as [t [args|e]] eqn:Hargs.
    + rewrite bind_pair, bind_emit. cbn [fst].
      assert (forall ev, ev ∈ t -> False) as Hnone.
      { unfold serveArgs, orDevServer in Hargs.
        destruct (get_prop io "devServer");
          repeat match type of Hargs with
                 | context [truthy ?v] => destruct (truthy v)
                 end;
          cbn in Hargs; simplify_eq; by intros ev ?%elem_of_nil. }
      intros [Hev|Hev]%elem_of_app; [by apply Hnone in Hev|].
      apply elem_of_cons in Hev as [Hev|Hev]; [discriminate Hev|].
      destruct (run "serve" args ["serve"]) as [[?|?]|?]; by apply elem_of_nil in Hev.
    + rewrite bind_pair. cbn [fst].
      unfold serveArgs, orDevServer in Hargs.
      destruct (get_prop io "devServer");
        repeat match type of Hargs with
               | context [truthy ?v] => destruct (truthy v)
               end;
        cbn in Hargs; simplify_eq; by intros ?%elem_of_nil.
Qed.

(** X9.  A service is constructed only after [setup] has succeeded and
    [checkUnsupportedConfig] has passed, and the constructor is applied to
    the system path of the project root, the package of the workspace
    root and the inline options of [setup]: when this application throws,
    the exception is the error of the stream; when it returns a service,
    that service is the one run, and the stream is what [map] makes of
    its call. *)
Theorem service_construction (E : environment) (options : obj) (trace : list event)
    (result : completion (Rx.stream jsval)) (path pkg inlineOptions : jsval) :
  runBuilder E options = (trace, result) ->
  EvService path pkg inlineOptions ∈ trace ->
  exists options' t projectRoot browserOptions,
    normalizeCss options = ([], Normal options')
    /\ setup E options' = (t, Normal (projectRoot, browserOptions, inlineOptions))
    /\ checkUnsupportedConfig E projectRoot = Normal tt
    /\ resolvePkg E (workspaceRoot E) = Normal pkg
    /\ path = getSystemPath E projectRoot
    /\ (forall e,
          Service E path pkg inlineOptions = Throw e ->
          trace = t ++ [EvService path pkg inlineOptions]
          /\ result = Normal (Rx.Stream [] (Rx.Errored e)))
    /\ (forall run,
          Service E path pkg inlineOptions = Normal run ->
          exists args,
            trace = t ++ [EvService path pkg inlineOptions;
                          EvRun "serve" args ["serve"] (run "serve" args ["serve"])]
            /\ result
               = Normal (Rx.map toBuilderOutput (observed (run "serve" args ["serve"])))).
Proof.
  intros Hrun Hev.
  assert (forall options', EvService path pkg inlineOptions ∉ (setup E options').1) as Hsetup.
  { intros options' [(? & ? & ? & _ & _ & _ & ?)|?]%setup_events; discriminate. }
  destruct (normalizeCss_cases options) as [Hcss|Hcss].
  { assert (runBuilder E options = ([], Throw TypeError)) as Hthrown
      by (unfold runBuilder; rewrite Hcss; reflexivity).
    rewrite Hthrown in Hrun. injection Hrun as <- _. by apply elem_of_nil in Hev. }
  assert (exists options', normalizeCss options = ([], Normal options')) as [options' Hcss']
    by (destruct Hcss; eauto).
  pose proof Hrun as Hunfold.
  rewrite (runBuilder_unfold E options options' Hcss') in Hunfold.
  specialize (Hsetup options').
  destruct (setup E options') as [t [[[root bo] io]|e]] eqn:Ht; cbn [fst snd] in *.
  - assert (EvService path pkg inlineOptions ∈ (serve E options' (root, bo, io)).1) as Hserve.
    { injection Hunfold as <- _. apply elem_of_app in Hev as [Hev|Hev]; [done|exact Hev]. }
    apply (serve_service E options' (root, bo, io)) in Hserve as (Hcheck & Hpkg & -> & ->).
    cbn [fst snd] in *. clear Hunfold.
    exists options', t, root, bo. split; [exact Hcss'|]. split; [exact Ht|].
    split; [exact Hcheck|]. split; [exact Hpkg|]. split; [reflexivity|]. split.
    + intros e Hservice.
      assert (runBuilder E options
              = (t ++ [EvService (getSystemPath E root) pkg io],
                 Normal (Rx.Stream [] (Rx.Errored e)))) as Hfailed.
      { rewrite (runBuilder_unfold E options options' Hcss'), Ht. cbn [fst snd].
        unfold serve.
        rewrite Hcheck, bind_lift_Normal, Hpkg, bind_lift_Normal, bind_emit, Hservice,
          bind_lift_Throw.
        reflexivity. }
      rewrite Hfailed in Hrun. by injection Hrun as <- <-.
    + intros run Hservice.
      destruct (runBuilder_served _ _ _ _ _ _ _ _ _ Hcss' Ht Hcheck Hpkg Hservice)
        as (inline & args & _ & _ & Hserved).
      rewrite Hserved in Hrun. injection Hrun as <- <-. by exists args.
  - injection Hunfold as <- _. done.
Qed.

Lemma service_construction_witness :
  exists trace projectRoot browserOptions inlineOptions args,
    setup sampleProject sampleOptions
    = (trace, Normal (projectRoot, browserOptions, inlineOptions))
    /\ EvService projectRoot (VObj ∅) inlineOptions
         ∈ (runBuilder sampleProject sampleOptions).1
    /\ (runBuilder sampleProject sampleOptions).2
       = Normal (Rx.map toBuilderOutput (observed (sampleService "serve" args ["serve"]))).
Proof.
  destruct (setup sampleProject sampleOptions)
    as [trace [[[projectRoot browserOptions] inlineOptions]|e]] eqn:Hsetup;
    [|discriminate Hsetup].
  assert (EvService projectRoot (VObj ∅) inlineOptions
            ∈ (runBuilder sampleProject sampleOptions).1) as Hev.
  { rewrite (runBuilder_unfold sampleProject sampleOptions sampleOptions eq_refl), Hsetup.
    cbn [fst snd]. apply elem_of_app. right. apply list_elem_of_here. }
  destruct (service_construction sampleProject sampleOptions _ _ _ _ _
              (surjective_pairing _) Hev)
    as (options' & t & root & bo & _ & _ & _ & _ & _ & _ & Hserved).
  destruct (Hserved sampleService eq_refl) as (args & _ & Hresult).
  exists trace, projectRoot, browserOptions, inlineOptions, args.
  split; [reflexivity|]. split; [exact Hev|exact Hresult].
Defined.

(** ** The dev-server options, layer by layer *)

Lemma get_optional_over_empty (config : jsval) (key : string) :
  get_optional (over (VObj ∅) config) key = get_optional config key.
Proof.
  destruct config as [| | | | | |c| | |]; try reflexivity.
  change (over (VObj ∅) (VObj c))
    with (VObj (MergeOptions.mergeKeys true (MergeOptions.merge true) ∅ c)).
  cbn [get_optional]. rewrite get_mergeKeys. apply over_undefined_l.
Qed.

Lemma over_empty_shape (config : jsval) :
  (exists lower, over (VObj ∅) config = VObj lower)
  \/ isOptionObject (over (VObj ∅) config) = false.
Proof.
  destruct config; try (right; reflexivity); left; eexists; reflexivity.
Qed.

(** What [inlineOptions.devServer?.key] reads when [devServer] is the
    default [{}] with the project configuration's and the explicit value
    laid over it. *)
Lemma get_optional_devServer (config explicit : jsval) (key : string) :
  get_optional (over (over (VObj ∅) config) explicit) key
  = match explicit with
    | VUndef => get_optional config key
    | VObj devServer => over (get_optional config key) (get devServer key)
    | _ => VUndef
    end.
Proof.
  destruct explicit as [| | | | | |devServer| | |];
    try (rewrite over_replace by reflexivity; reflexivity).
  - apply get_optional_over_empty.
  - rewrite <- (get_optional_over_empty config key).
    destruct (over_empty_shape config) as [[lower ->]|Hplain].
    + change (over (VObj lower) (VObj devServer))
        with (VObj (MergeOptions.mergeKeys true (MergeOptions.merge true) lower devServer)).
      cbn [get_optional]. apply get_mergeKeys.
    + rewrite over_replace by (by rewrite ?Hplain).
      destruct (over (VObj ∅) config); try discriminate Hplain;
        cbn [get_optional]; by rewrite over_undefined_l.
Qed.

(** X10.  When the service has been constructed, [service.run] is
    applied to an object in which a dev-server option [open], [host],
    [port], [https] or [public] that is falsy is replaced by the field of
    the explicit [options.devServer] when that is an object and defines
    the field (merged with the project configuration's when both are
    option objects), by the field of the project configuration's
    [devServer] when [options.devServer] is undefined or leaves the field
    undefined, and by undefined when [options.devServer] is anything
    else; the stream is what [map] makes of this very call. *)
Theorem devServer_fallback (E : environment) (options options' browserOptions : obj)
    (trace : list event) (projectRoot inlineOptions pkg : jsval) (run : service) :
  normalizeCss options = ([], Normal options') ->
  setup E options' = (trace, Normal (projectRoot, browserOptions, inlineOptions)) ->
  checkUnsupportedConfig E projectRoot = Normal tt ->
  resolvePkg E (workspaceRoot E) = Normal pkg ->
  Service E (getSystemPath E projectRoot) pkg inlineOptions = Normal run ->
  exists vueConfig (config : obj) args,
    resolveVueConfig E projectRoot = Normal vueConfig
    /\ js_or vueConfig (VObj ∅) = VObj config
    /\ (forall key,
          key ∈ ["open"; "host"; "port"; "https"; "public"] ->
          truthy (get options key) = false ->
          args !! key
          = Some (match get options "devServer" with
                  | VUndef => get_optional (get config "devServer") key
                  | VObj devServer =>
                      over (get_optional (get config "devServer") key) (get devServer key)
                  | _ => VUndef
                  end))
    /\ runBuilder E options
       = (trace ++ [EvService (getSystemPath E projectRoot) pkg inlineOptions;
                    EvRun "serve" args ["serve"] (run "serve" args ["serve"])],
          Normal (Rx.map toBuilderOutput (observed (run "serve" args ["serve"])))).
Proof.
  intros Hcss Hsetup Hcheck Hpkg Hservice.
  destruct (runBuilder_served _ _ _ _ _ _ _ _ _ Hcss Hsetup Hcheck Hpkg Hservice)
    as (io & args & -> & Hargs & Hrun).
  destruct (setup_merged _ _ _ _ _ _ Hsetup)
    as (babel & vue & hook & config & merged & _ & Hvue & _ & Hconfig & _ & Hget & Hio & _).
  exists vue, config, args. split; [exact Hvue|]. split; [exact Hconfig|].
  split; [|exact Hrun].
  assert (get io "devServer"
          = over (over (VObj ∅) (get config "devServer")) (get options "devServer")) as Hdev.
  { injection Hio as ->.
    rewrite <- (normalizeCss_get options options' "devServer" Hcss) by discriminate.
    transitivity (get merged "devServer"); [|apply Hget].
    destruct (truthy hook); [|reflexivity].
    unfold get. rewrite lookup_insert_ne; [reflexivity|discriminate]. }
  rewrite serveArgs_obj in Hargs. injection Hargs as <-.
  intros key Hkey Hfalsy.
  rewrite <- get_optional_devServer, <- Hdev.
  assert (get options' key = get options key) as Hsame.
  { apply (normalizeCss_get options options' key Hcss).
    intros ->. repeat (apply elem_of_cons in Hkey as [?|Hkey]; [discriminate|]).
    by apply elem_of_nil in Hkey. }
  repeat (apply elem_of_cons in Hkey as [->|Hkey];
          [rewrite <- Hsame in Hfalsy; unfold js_or; rewrite Hfalsy; reflexivity|]).
  by apply elem_of_nil in Hkey.
Qed.

Lemma devServer_fallback_witness :
  exists trace projectRoot browserOptions inlineOptions args,
    setup sampleProject sampleOptions
    = (trace, Normal (projectRoot, browserOptions, inlineOptions))
    /\ truthy (get sampleOptions "port") = false
    /\ args !! "port" = Some (VNum 4000)
    /\ runBuilder sampleProject sampleOptions
       = (trace ++ [EvService projectRoot (VObj ∅) inlineOptions;
                    EvRun "serve" args ["serve"] (sampleService "serve" args ["serve"])],
          Normal (Rx.map toBuilderOutput (observed (sampleService "serve" args ["serve"])))).
Proof.
  destruct (setup sampleProject sampleOptions)
    as [trace [[[projectRoot browserOptions] inlineOptions]|e]] eqn:Hsetup;
    [|discriminate Hsetup].
  destruct (devServer_fallback sampleProject sampleOptions sampleOptions browserOptions trace
              projectRoot inlineOptions (VObj ∅) sampleService
              eq_refl Hsetup eq_refl eq_refl eq_refl)
    as (vue & config & args & Hvue & Hconfig & Hkeys & Hrun).
  injection Hvue as <-. injection Hconfig as <-.
  exists trace, projectRoot, browserOptions, inlineOptions, args.
  split; [reflexivity|]. split; [reflexivity|]. split; [|exact Hrun].
  exact (Hkeys "port" ltac:(do 2 apply list_elem_of_further; apply list_elem_of_here) eq_refl).
Defined.

(** ** Keys the builder does not manage *)

(** X11.  A key of the project configuration that is none of the six the
    builder sets itself reaches the service as the project configuration
    has it, but for [configureWebpack] when a legacy hook was found: the
    hook then takes the place of the project configuration's value. *)
Theorem config_passes_through (E : environment) (options : obj) (trace : list event)
    (projectRoot : jsval) (browserOptions : obj) (inlineOptions : jsval) :
  setup E options = (trace, Normal (projectRoot, browserOptions, inlineOptions)) ->
  exists vueConfig hook (config : obj),
    resolveVueConfig E projectRoot = Normal vueConfig
    /\ resolveConfigureWebpack E projectRoot = Normal hook
    /\ js_or vueConfig (VObj ∅) = VObj config
    /\ forall key,
         key ∉ ["chainWebpack"; "publicPath"; "filenameHashing"; "css"; "devServer";
                "transpileDependencies"] ->
         get_optional inlineOptions key
         = if bool_decide (key = "configureWebpack") && truthy hook
           then hook
           else get config key.
Proof.
  intros H. apply setup_merged in H
    as (babel & vue & hook & config & merged & _ & Hvue & Hhook & Hconfig & _
        & Hget & -> & _).
  exists vue, hook, config. split; [exact Hvue|]. split; [exact Hhook|].
  split; [exact Hconfig|]. intros key Hkey.
  assert (key <> "chainWebpack" /\ key <> "publicPath" /\ key <> "filenameHashing"
          /\ key <> "css" /\ key <> "devServer" /\ key <> "transpileDependencies")
    as (H1 & H2 & H3 & H4 & H5 & H6).
  { repeat split; intros ->; apply Hkey; repeat first [apply list_elem_of_here
                                                       |apply list_elem_of_further]. }
  assert (get merged key = get config key) as Hmerged.
  { rewrite Hget.
    assert (get defaults key = VUndef) as ->.
    { unfold get, defaults.
      rewrite !lookup_insert_ne, lookup_singleton_ne by congruence. reflexivity. }
    assert (get (explicitOptions options browserOptions babel (VObj config)) key = VUndef)
      as ->.
    { unfold get, explicitOptions.
      rewrite !lookup_insert_ne, lookup_singleton_ne by congruence. reflexivity. }
    rewrite over_undefined_l. reflexivity. }
  cbn [get_optional]. destruct (truthy hook).
  - case_bool_decide as Hcw; cbn [andb]; unfold get.
    + subst key. by rewrite lookup_insert_eq.
    + rewrite lookup_insert_ne by congruence. exact Hmerged.
  - rewrite andb_false_r. exact Hmerged.
Qed.

Lemma config_passes_through_witness :
  exists trace projectRoot browserOptions inlineOptions,
    setup legacyProject sampleOptions
    = (trace, Normal (projectRoot, browserOptions, inlineOptions))
    /\ get_optional inlineOptions "configureWebpack" = VFun "configure-webpack.js".
Proof.
  destruct (setup legacyProject sampleOptions)
    as [trace [[[projectRoot browserOptions] inlineOptions]|e]] eqn:Hsetup;
    [|discriminate Hsetup].
  exists trace, projectRoot, browserOptions, inlineOptions. split; [reflexivity|].
  destruct (config_passes_through _ _ _ _ _ _ Hsetup)
    as (vue & hook & config & _ & Hhook & _ & Hkeys).
  injection Hhook as <-.
  refine (Hkeys "configureWebpack" _).
  intros Hin. repeat (apply elem_of_cons in Hin as [Hin|Hin]; [discriminate Hin|]).
  apply elem_of_nil in Hin. exact Hin.
Defined.

(** ** The other arguments of the service *)

Lemma serveObject_keys (options browserOptions : obj) (open host port https public : jsval)
    (key : string) :
  is_Some (serveObject options browserOptions open host port https public !! key)
  <-> key ∈ ["open"; "copy"; "stdin"; "mode"; "host"; "port"; "https"; "public";
             "skip-plugins"].
Proof.
  unfold serveObject.
  rewrite !lookup_insert_is_Some', lookup_singleton_is_Some, !elem_of_cons, elem_of_nil.
  intuition congruence.
Qed.

(** X12.  When the service has been constructed, [service.run] is
    applied to ['serve'], an object and [['serve']], where the object
    has the nine keys of builder.ts:178-188 and no other; [copy] and
    [stdin] are the dev-server options, [mode] and [skip-plugins] are the
    [mode] and [skipPlugins] of the browser options, which are what
    [validateOptions] answered.  The stream is what [map] makes of this
    very call. *)
Theorem serve_arguments_rest (E : environment) (options options' browserOptions : obj)
    (trace : list event) (projectRoot inlineOptions pkg : jsval) (run : service) :
  normalizeCss options = ([], Normal options') ->
  setup E options' = (trace, Normal (projectRoot, browserOptions, inlineOptions)) ->
  checkUnsupportedConfig E projectRoot = Normal tt ->
  resolvePkg E (workspaceRoot E) = Normal pkg ->
  Service E (getSystemPath E projectRoot) pkg inlineOptions = Normal run ->
  exists input builderName args,
    validateOptions E input builderName = Resolved browserOptions
    /\ (forall key,
          is_Some (args !! key)
          <-> key ∈ ["open"; "copy"; "stdin"; "mode"; "host"; "port"; "https"; "public";
                     "skip-plugins"])
    /\ args !! "copy" = Some (get options "copy")
    /\ args !! "stdin" = Some (get options "stdin")
    /\ args !! "mode" = Some (get browserOptions "mode")
    /\ args !! "skip-plugins" = Some (get browserOptions "skipPlugins")
    /\ runBuilder E options
       = (trace ++ [EvService (getSystemPath E projectRoot) pkg inlineOptions;
                    EvRun "serve" args ["serve"] (run "serve" args ["serve"])],
          Normal (Rx.map toBuilderOutput (observed (run "serve" args ["serve"])))).
Proof.
  intros Hcss Hsetup Hcheck Hpkg Hservice.
  destruct (runBuilder_served _ _ _ _ _ _ _ _ _ Hcss Hsetup Hcheck Hpkg Hservice)
    as (io & args & -> & Hargs & Hrun).
  destruct (setup_Normal _ _ _ _ _ _ Hsetup)
    as (target & raw & name & ? & ? & ? & cw & _ & _ & _ & Hvalid & _).
  exists (spread raw (overrides options')), name, args. split; [exact Hvalid|].
  rewrite serveArgs_obj in Hargs. injection Hargs as <-.
  split; [intros key; apply serveObject_keys|].
  rewrite <- (normalizeCss_get options options' "copy" Hcss) by discriminate.
  rewrite <- (normalizeCss_get options options' "stdin" Hcss) by discriminate.
  split; [reflexivity|]. split; [reflexivity|]. split; [reflexivity|].
  split; [reflexivity|exact Hrun].
Qed.

Lemma serve_arguments_rest_witness :
  exists trace projectRoot browserOptions inlineOptions args,
    setup sampleProject sampleOptions
    = (trace, Normal (projectRoot, browserOptions, inlineOptions))
    /\ args !! "mode" = Some (get browserOptions "mode")
    /\ (is_Some (args !! "watch") <->
        "watch" ∈ ["open"; "copy"; "stdin"; "mode"; "host"; "port"; "https"; "public";
                   "skip-plugins"])
    /\ runBuilder sampleProject sampleOptions
       = (trace ++ [EvService projectRoot (VObj ∅) inlineOptions;
                    EvRun "serve" args ["serve"] (sampleService "serve" args ["serve"])],
          Normal (Rx.map toBuilderOutput (observed (sampleService "serve" args ["serve"])))).
Proof.
  destruct (setup sampleProject sampleOptions)
    as [trace [[[projectRoot browserOptions] inlineOptions]|e]] eqn:Hsetup;
    [|discriminate Hsetup].
  destruct (serve_arguments_rest sampleProject sampleOptions sampleOptions browserOptions
              trace projectRoot inlineOptions (VObj ∅) sampleService
              eq_refl Hsetup eq_refl eq_refl eq_refl)
    as (input & name & args & _ & Hkeys & _ & _ & Hmode & _ & Hrun).
  exists trace, projectRoot, browserOptions, inlineOptions, args.
  split; [reflexivity|]. split; [exact Hmode|]. split; [exact (Hkeys "watch")|exact Hrun].
Defined.

(** ** The order of events *)

Lemma setup_sorted (E : environment) (options : obj) :
  StronglySorted Nat.lt (phase <$> (setup E options).1).
Proof.
  destruct (setup_trace E options) as [->|(? & ? & ? & _ & _ & _ & [->| ->])];
    cbn; repeat constructor.
Qed.

(** X13.  The events of an invocation come in one order: the request for
    validation, the deprecation warning, the construction of the service,
    the call of [service.run]; each happens at most once. *)
Theorem events_in_order (E : environment) (options : obj) :
  StronglySorted Nat.lt (phase <$> (runBuilder E options).1).
Proof.
  destruct (runBuilder_cases E options)
    as [[H _]|(options' & _ & [(e & _ & H)|(t & root & bo & io & Ht & H)])].
  - rewrite H. constructor.
  - rewrite H. apply setup_sorted.
  - pose proof (setup_trace E options') as Htrace. rewrite Ht in Htrace. cbn [fst] in Htrace.
    assert (t = [] \/ (exists input name, t = [EvValidate input name])
            \/ exists input name, t = [EvValidate input name; EvWarn deprecation]) as Hshape.
    { destruct Htrace as [->|(? & ? & ? & _ & _ & _ & [->| ->])]; eauto 6. }
    destruct H as [[e H]|[(pkg & e & H)|(pkg & run & args & _ & H)]]; rewrite H; cbn [fst];
      destruct Hshape as [->|[(? & ? & ->)|(? & ? & ->)]]; cbn;
      repeat constructor.
Qed.

(** ** The console output *)

Lemma append_cons (x : ascii) (a b : string) : String x a +:+ b = String x (a +:+ b).
Proof. reflexivity. Qed.

Lemma append_nil_l (b : string) : "" +:+ b = b.
Proof. reflexivity. Qed.

Lemma append_assoc (a b c : string) : (a +:+ b) +:+ c = a +:+ b +:+ c.
Proof. induction a as [|x a IH]; [done|]. by rewrite !append_cons, IH. Qed.

Lemma strip_prefix_Some (p s rest : string) :
  strip_prefix p s = Some rest <-> s = p +:+ rest.
Proof.
  revert s. induction p as [|a p IH]; intros s; cbn.
  - split; [by intros [= ->]|by intros ->].
  - destruct s as [|b s]; [done|]. case_decide as Hab.
    + subst b. rewrite IH. split; [by intros ->|by intros [= ->]].
    + split; [done|]. intros [= -> _]. done.
Qed.

Lemma matchFirst_Some (alternatives : list string) (s group after : string) :
  matchFirst alternatives s = Some (group, after) ->
  group ∈ alternatives /\ s = group +:+ " build" +:+ after.
Proof.
  induction alternatives as [|c rest IH]; cbn; [done|].
  destruct (strip_prefix (c +:+ " build") s) as [r|] eqn:Hc.
  - intros [= -> ->]. split; [by left|].
    apply strip_prefix_Some in Hc. by rewrite Hc, append_assoc.
  - intros [Hin ->]%IH. split; [by right|done].
Qed.

Lemma matchFirst_build (group after : string) :
  group ∈ buildCommands ->
  matchFirst buildCommands (group +:+ " build" +:+ after) = Some (group, after).
Proof.
  unfold buildCommands.
  intros Hin. repeat (apply elem_of_cons in Hin as [->|Hin]; [reflexivity|]).
  by apply elem_of_nil in Hin.
Qed.

Lemma length_app_inj (a b x y : string) :
  a +:+ x = b +:+ y -> String.length a = String.length b -> a = b /\ x = y.
Proof.
  revert b. induction a as [|c a IH]; intros [|d b]; cbn; try done.
  intros [= -> H] [= Hlen]. destruct (IH _ H Hlen) as [-> ->]. done.
Qed.

Lemma buildRegex_exec_Some (s before group after : string) :
  buildRegex_exec s = Some (before, group, after) ->
  group ∈ buildCommands
  /\ s = before +:+ group +:+ " build" +:+ after
  /\ forall pre c post,
       c ∈ buildCommands ->
       s = pre +:+ c +:+ " build" +:+ post ->
       (String.length before <= String.length pre)%nat.
Proof.
  revert before. induction s as [|x s IH]; intros before; cbn [buildRegex_exec].
  - destruct (matchFirst buildCommands "") as [[g a]|] eqn:Hm; [|done].
    intros [= <- <- <-]. apply matchFirst_Some in Hm as [Hin Heq].
    split_and!; [done|done|]. intros; cbn; lia.
  - destruct (matchFirst buildCommands (String x s)) as [[g a]|] eqn:Hm.
    + intros [= <- <- <-]. apply matchFirst_Some in Hm as [Hin Heq].
      split_and!; [done|done|]. intros; cbn; lia.
    + destruct (buildRegex_exec s) as [[[b g] a]|] eqn:Hs; [|done].
      intros [= <- <- <-]. destruct (IH _ eq_refl) as (Hin & Heq & Hleft).
      split_and!; [done|by rewrite Heq|].
      intros [|y pre] c post Hc Hpre.
      * rewrite append_nil_l in Hpre. rewrite Hpre, matchFirst_build in Hm by done. done.
      * rewrite append_cons in Hpre. injection Hpre as -> Hpre.
        cbn [String.length]. apply le_n_S. by eapply Hleft.
Qed.

Lemma buildRegex_exec_None (s : string) :
  buildRegex_exec s = None ->
  forall pre c post, c ∈ buildCommands -> s <> pre +:+ c +:+ " build" +:+ post.
Proof.
  intros Hnone pre. revert s Hnone.
  induction pre as [|y pre IH]; intros s Hnone c post Hc ->.
  - rewrite append_nil_l in Hnone.
    assert (forall t, matchFirst buildCommands t = Some (c, post) -> buildRegex_exec t <> None)
      as Hfound.
    { intros t Ht. destruct t; cbn [buildRegex_exec]; by rewrite Ht. }
    by eapply Hfound; [apply matchFirst_build|].
  - rewrite append_cons in Hnone. cbn [buildRegex_exec] in Hnone.
    destruct (matchFirst buildCommands _) as [[? ?]|]; [done|].
    destruct (buildRegex_exec (pre +:+ c +:+ " build" +:+ post)) as [[[? ?] ?]|] eqn:Hs; [done|].
    by eapply IH.
Qed.

(** The match [exec] finds is the leftmost one. *)
Lemma buildRegex_exec_leftmost (before group after : string) :
  group ∈ buildCommands ->
  (forall pre c post,
      c ∈ buildCommands ->
      before +:+ group +:+ " build" +:+ after = pre +:+ c +:+ " build" +:+ post ->
      (String.length before <= String.length pre)%nat) ->
  buildRegex_exec (before +:+ group +:+ " build" +:+ after) = Some (before, group, after).
Proof.
  intros Hgroup Hleft.
  destruct (buildRegex_exec (before +:+ group +:+ " build" +:+ after))
    as [[[b g] a]|] eqn:Hexec.
  - apply buildRegex_exec_Some in Hexec as (Hg & Heq & Hfirst).
    assert (String.length b = String.length before) as Hlen.
    { apply Nat.le_antisymm;
        [exact (Hfirst before group after Hgroup eq_refl)|exact (Hleft b g a Hg Heq)]. }
    symmetry in Heq. destruct (length_app_inj _ _ _ _ Heq Hlen) as [-> Hrest].
    pose proof (matchFirst_build g a Hg) as Hm. rewrite Hrest in Hm.
    rewrite matchFirst_build in Hm by done. by simplify_eq.
  - by eapply buildRegex_exec_None in Hexec.
Qed.

Lemma getSubstitution_plain (matched before after group text rest : string) :
  (forall pre post, text <> pre +:+ "$" +:+ post) ->
  getSubstitution matched before after group (text +:+ rest)
  = text +:+ getSubstitution matched before after group rest.
Proof.
  induction text as [|c text IH]; intros Hplain; [done|].
  assert (c <> "$"%char) as Hc.
  { intros ->. by apply (Hplain "" text). }
  assert (getSubstitution matched before after group (String c (text +:+ rest))
          = String c (getSubstitution matched before after group (text +:+ rest))) as Hstep.
  { destruct c as [[] [] [] [] [] [] [] []]; try reflexivity. done. }
  rewrite !append_cons, Hstep, IH; [done|].
  intros pre post ->. by apply (Hplain (String c pre) post).
Qed.

Lemma no_dollar_cons (c : ascii) (text : string) :
  c <> "$"%char ->
  (forall pre post, text <> pre +:+ "$" +:+ post) ->
  forall pre post, String c text <> pre +:+ "$" +:+ post.
Proof.
  intros Hc Htext [|x pre] post.
  - rewrite append_nil_l. intros [= ? _]. done.
  - rewrite append_cons. intros [= _ H]. by apply Htext in H.
Qed.

Lemma no_dollar_nil (pre post : string) : "" <> pre +:+ "$" +:+ post.
Proof. by destruct pre. Qed.

(** X14.  A text that holds none of [pnpm run build], [npm run build] and
    [yarn build] is printed as it is. *)
Theorem cyan_unchanged (project arg : string) :
  (forall pre c post, c ∈ buildCommands -> arg <> pre +:+ c +:+ " build" +:+ post) ->
  cyan project arg = arg.
Proof.
  intros Hnone. unfold cyan.
  destruct (buildRegex_exec arg) as [[[b g] a]|] eqn:Hexec; [|done].
  apply buildRegex_exec_Some in Hexec as (Hg & Heq & _). by apply Hnone in Heq.
Qed.

Lemma cyan_unchanged_witness : cyan "demo" "yarn serve" = "yarn serve".
Proof.
  exact (cyan_unchanged "demo" "yarn serve" (buildRegex_exec_None "yarn serve" eq_refl)).
Defined.

(** X15.  In a text that holds one of the build commands, the leftmost of
    them is replaced by [nx build <project> --prod], [pnpm run build] as a
    whole; what precedes and what follows it, later build commands
    included, is printed as it is.  The project name is taken to hold no
    [$]. *)
Theorem cyan_rewrites_first (project before group after : string) :
  group ∈ buildCommands ->
  (forall pre c post,
      c ∈ buildCommands ->
      before +:+ group +:+ " build" +:+ after = pre +:+ c +:+ " build" +:+ post ->
      (String.length before <= String.length pre)%nat) ->
  (forall pre post, project <> pre +:+ "$" +:+ post) ->
  cyan project (before +:+ group +:+ " build" +:+ after)
  = before +:+ "nx build " +:+ project +:+ " --prod" +:+ after.
Proof.
  intros Hgroup Hleft Hplain. unfold cyan.
  rewrite buildRegex_exec_leftmost by done.
  change ("nx build " +:+ project +:+ " --prod")
    with (String.append "nx build " (project +:+ " --prod")).
  rewrite (getSubstitution_plain _ _ _ _ "nx build ")
    by (repeat (apply no_dollar_cons; [discriminate|]); apply no_dollar_nil).
  rewrite getSubstitution_plain by done.
  change (getSubstitution (group +:+ " build") before after group " --prod") with " --prod".
  by rewrite !append_assoc.
Qed.

Lemma cyan_rewrites_first_witness :
  cyan "demo" "Run pnpm run build, then yarn build."
  = "Run nx build demo --prod, then yarn build.".
Proof.
  refine (cyan_rewrites_first "demo" "Run " "pnpm run" ", then yarn build." _ _ _).
  - apply list_elem_of_here.
  - exact (proj2 (proj2 (buildRegex_exec_Some "Run pnpm run build, then yarn build."
                           "Run " "pnpm run" ", then yarn build." eq_refl))).
  - repeat (apply no_dollar_cons; [discriminate|]). apply no_dollar_nil.
Defined.

(** X16.  The project name is read as a replacement pattern: where it
    holds [$&], the command that was matched is printed again. *)
Theorem cyan_project_pattern (name rest before group after : string) :
  group ∈ buildCommands ->
  (forall pre c post,
      c ∈ buildCommands ->
      before +:+ group +:+ " build" +:+ after = pre +:+ c +:+ " build" +:+ post ->
      (String.length before <= String.length pre)%nat) ->
  (forall pre post, name <> pre +:+ "$" +:+ post) ->
  (forall pre post, rest <> pre +:+ "$" +:+ post) ->
  cyan (name +:+ "$&" +:+ rest) (before +:+ group +:+ " build" +:+ after)
  = before +:+ "nx build " +:+ name +:+ group +:+ " build" +:+ rest +:+ " --prod" +:+ after.
Proof.
  intros Hgroup Hleft Hname Hrest. unfold cyan.
  rewrite buildRegex_exec_leftmost by done.
  change ("nx build " +:+ (name +:+ "$&" +:+ rest) +:+ " --prod")
    with (String.append "nx build " ((name +:+ "$&" +:+ rest) +:+ " --prod")).
  rewrite (getSubstitution_plain _ _ _ _ "nx build ")
    by (repeat (apply no_dollar_cons; [discriminate|]); apply no_dollar_nil).
  rewrite !append_assoc, getSubstitution_plain by done.
  change (getSubstitution (group +:+ " build") before after group ("$&" +:+ rest +:+ " --prod"))
    with ((group +:+ " build")
          +:+ getSubstitution (group +:+ " build") before after group (rest +:+ " --prod")).
  rewrite getSubstitution_plain by done.
  change (getSubstitution (group +:+ " build") before after group " --prod") with " --prod".
  by rewrite !append_assoc.
Qed.

Lemma cyan_project_pattern_witness :
  cyan "web$&" "yarn build" = "nx build webyarn build --prod".
Proof.
  refine (cyan_project_pattern "web" "" "" "yarn" "" _ _ _ _).
  - do 2 apply list_elem_of_further. apply list_elem_of_here.
  - exact (proj2 (proj2 (buildRegex_exec_Some "yarn build" "" "yarn" "" eq_refl))).
  - repeat (apply no_dollar_cons; [discriminate|]). apply no_dollar_nil.
  - apply no_dollar_nil.
Defined.
